(** * Verification of the TFLint command registrar and the run tree provider

    Shallow embedding of [src/commands/tflint.ts] (the file holds two
    TypeScript modules: the [TFLintCommands] registrar and the
    [RunTreeDataProvider] with its lookup helpers, the [RunTreeItem] view
    model and the [runMarkdown] formatter).

    JavaScript objects that the code reads by key are finite maps from
    property names to values; [undefined] is [None]. *)

From stdpp Require Import base option list strings gmap.
From Stdlib Require Import Ascii String.

Local Open Scope string_scope.

(** ** JavaScript primitives used by the source *)

Module Js.

(** [Array.prototype.find]: visits the elements in index order and stops
    at the first one the callback accepts; [undefined] when none is. *)
Fixpoint array_find {A : Type} (callback : A -> bool) (arr : list A) : option A :=
  match arr with
  | [] => None
  | x :: rest => if callback x then Some x else array_find callback rest
  end.

(** [s === v] where [s] is a string and [v] is a string or [undefined]. *)
Definition strict_eq (s : string) (v : option string) : bool :=
  match v with
  | Some t => String.eqb s t
  | None => false
  end.

(** [Array.prototype.includes] on an array of strings, the needle being a
    string or [undefined]. *)
Definition includes (arr : list string) (v : option string) : bool :=
  existsb (fun s => strict_eq s v) arr.

(** A value interpolated in a template literal, or the operand of a
    string [+]: [undefined] prints as the nine letters. *)
Definition to_string (v : option string) : string :=
  match v with
  | Some s => s
  | None => "undefined"
  end.

(** [v += s] on a property holding a string or [undefined]. *)
Definition plus_assign (v : option string) (s : string) : option string :=
  Some (to_string v ++ s).

(** [s.slice(0, n)] *)
Definition slice0 (n : nat) (s : string) : string := String.substring 0 n s.

(** [s.split('\n')[0]]: the text before the first line feed. *)
Fixpoint first_line (s : string) : string :=
  match s with
  | EmptyString => EmptyString
  | String c rest =>
      if Ascii.eqb c "010"%char then EmptyString else String c (first_line rest)
  end.

(** The double quote and the line feed, as one-character strings. *)
Definition dq : string := String "034"%char EmptyString.
Definition nl : string := String "010"%char EmptyString.

(** Values a [catch] clause can receive, with what the handler tests:
    [instanceof ZodiosError], [axios.isAxiosError], [instanceof Error]
    and [typeof error === 'string']. *)
Inductive ErrorClass := ZodiosErrorClass | AxiosErrorClass | PlainErrorClass.

Record AxiosResponse := {
  resp_status : Z;
  resp_errors : list string   (* [response.data.errors], opaque here *)
}.

Inductive Thrown :=
| ErrorObject (cls : ErrorClass) (message : string) (response : option AxiosResponse)
| StringValue (s : string)
| OtherValue.

Definition instanceof_ZodiosError (e : Thrown) : bool :=
  match e with ErrorObject ZodiosErrorClass _ _ => true | _ => false end.

Definition isAxiosError (e : Thrown) : bool :=
  match e with ErrorObject AxiosErrorClass _ _ => true | _ => false end.

(** [ZodiosError] and [AxiosError] both extend [Error]. *)
Definition instanceof_Error (e : Thrown) : bool :=
  match e with ErrorObject _ _ _ => true | _ => false end.

(** [error.response?.status] *)
Definition response_status (e : Thrown) : option Z :=
  match e with
  | ErrorObject _ _ (Some r) => Some (resp_status r)
  | _ => None
  end.

Inductive Result (A : Type) :=
| Ok (a : A)
| Throw (e : Thrown).
Arguments Ok {A} a.
Arguments Throw {A} e.

End Js.

(** ** The JSON:API data model ([terraformCloud/run]) *)

(** The resource linkage [{ data: { id, type } }] of a relationship; every
    level may be absent, which is why the source reads it with [?.]. *)
Record RelationshipData := {
  rel_id : option string;
  rel_type : option string
}.

Record Relationship := {
  data : option RelationshipData
}.

Abbreviation Relationships := (gmap string Relationship).
Abbreviation Attributes := (gmap string string).

(** [IncludedObject]: the declaration is imported by the source; the fields
    are the ones the source reads from it. [id] and [type] are strings;
    [attributes] is the object that the source casts, unchecked, to the
    attribute type it expects, so its properties are read by name and may
    be missing. *)
Record IncludedObject := {
  inc_id : string;
  inc_type : string;
  inc_attributes : Attributes;
  inc_relationships : Relationships
}.

(** [includedObject as ConfigurationVersion] is an unchecked cast. *)
Abbreviation ConfigurationVersion := IncludedObject (only parsing).

(** The run attributes the source reads, as template literals print them. *)
Record RunAttributes := {
  message : string;
  status : string;
  trigger_reason : string;
  created_at : string;
  source : string
}.

Record Run := {
  run_id : string;
  run_attributes : RunAttributes;
  run_relationships : Relationships
}.

(** [rel?.data?.id] *)
Definition ref_id (rel : option Relationship) : option string :=
  match rel with
  | Some rel =>
      match data rel with
      | Some d => rel_id d
      | None => None
      end
  | None => None
  end.

(** ** Relational lookup helpers *)

Definition findConfigurationVersionAttributes
    (included : list IncludedObject) (run : Run) : option ConfigurationVersion :=
  let includedObject :=
    Js.array_find
      (fun included : IncludedObject =>
         String.eqb (inc_type included) "configuration-versions" &&
         Js.strict_eq (inc_id included)
           (ref_id (run_relationships run !! "configuration-version")))
      included in
  match includedObject with
  | Some includedObject => Some includedObject
  | None => None
  end.

Definition findPlanAttributes
    (included : list IncludedObject) (run : Run) : option Attributes :=
  let plan :=
    Js.array_find
      (fun included : IncludedObject =>
         String.eqb (inc_type included) "plans" &&
         Js.strict_eq (inc_id included) (ref_id (run_relationships run !! "plan")))
      included in
  match plan with
  | Some plan => Some (inc_attributes plan)
  | None => None
  end.

Definition findApplyAttributes
    (included : list IncludedObject) (run : Run) : option Attributes :=
  let apply :=
    Js.array_find
      (fun included : IncludedObject =>
         String.eqb (inc_type included) "applies" &&
         Js.strict_eq (inc_id included) (ref_id (run_relationships run !! "apply")))
      included in
  match apply with
  | Some apply => Some (inc_attributes apply)
  | None => None
  end.

Definition findCreatedByAttributes
    (included : list IncludedObject) (run : Run) : option Attributes :=
  let includedObject :=
    Js.array_find
      (fun included : IncludedObject =>
         String.eqb (inc_type included) "users" &&
         Js.strict_eq (inc_id included)
           (ref_id (run_relationships run !! "created-by")))
      included in
  match includedObject with
  | Some includedObject => Some (inc_attributes includedObject)
  | None => None
  end.

Definition findIngressAttributes
    (included : list IncludedObject) (cfgVersion : ConfigurationVersion)
    : option Attributes :=
  let includedObject :=
    Js.array_find
      (fun included : IncludedObject =>
         String.eqb (inc_type included) "ingress-attributes" &&
         Js.strict_eq (inc_id included)
           (ref_id (inc_relationships cfgVersion !! "ingress-attributes")))
      included in
  match includedObject with
  | Some includedObject => Some (inc_attributes includedObject)
  | None => None
  end.

(** ** The host: handles, calls and their log *)

Record LanguageClient := { client_handle : nat }.
Record TelemetryReporter := { reporter_handle : nat }.
Record OutputChannel := { channel_handle : nat }.
Record ExtensionContext := { context_handle : nat }.
Record EventEmitter := { emitter_handle : nat }.
Record Disposable := { disposable_handle : nat }.
Record AuthenticationSession := { accessToken : string }.

(** The closures handed to [registerCommand], with the values they capture. *)
Inductive Callback :=
| TflintCallback (client : LanguageClient) (reporter : TelemetryReporter).

(** [apiClient.listRuns({ params, queries })] *)
Record ListRunsRequest := {
  workspace_id : string;
  page_size : Z;
  include : list string
}.

(** Every call the code makes into the editor host, the REST client or an
    imported module, in the order made. *)
Inductive Event :=
| RegisterCommand (command : string) (callback : Callback) (d : Disposable)
| DisposeOf (d : Disposable)
| TerraformTflint (client : LanguageClient) (reporter : TelemetryReporter)
| GetSession (providerId : string) (scopes : list string) (createIfNone : bool)
| ListRuns (request : ListRunsRequest)
| SendTelemetryEvent (reporter : TelemetryReporter) (eventName : string)
    (measurements : list (string * Z))
| SendTelemetryException (reporter : TelemetryReporter) (error : Js.Thrown)
| ShowErrorMessage (msg : string)
| ShowWarningMessage (msg : string)
| HandleZodiosError (error : Js.Thrown) (msg : string) (out : OutputChannel)
    (reporter : TelemetryReporter)
| HandleAuthError
| Fire (emitter : EventEmitter).

Record Host := {
  next_disposable : nat;
  trace : list Event
}.

(** State monad over the host. *)
Definition M (A : Type) : Type := Host -> A * Host.

Definition ret {A : Type} (a : A) : M A := fun h => (a, h).

Definition bind {A B : Type} (m : M A) (k : A -> M B) : M B :=
  fun h => let (a, h') := m h in k a h'.

Notation "'call' x <- m 'in' k" := (bind m (fun x => k))
  (at level 10, x name, m at level 100, k at level 200).
Notation "'exec' m 'in' k" := (bind m (fun _ => k))
  (at level 10, m at level 100, k at level 200).

Definition emit (e : Event) : M unit :=
  fun h => (tt, {| next_disposable := next_disposable h; trace := trace h ++ [e] |}).

(** [vscode.commands.registerCommand]: the host hands back a new disposable. *)
Definition registerCommand (command : string) (callback : Callback) : M Disposable :=
  fun h =>
    let d := {| disposable_handle := next_disposable h |} in
    (d, {| next_disposable := S (next_disposable h);
           trace := trace h ++ [RegisterCommand command callback d] |}).

(** ** [TFLintCommands] *)

Module TFLintCommands.

Record t := {
  client : LanguageClient;
  reporter : TelemetryReporter;
  commands : list Disposable
}.

(** [terraform.tflint(client, reporter)], the external linter integration. *)
Definition terraform_tflint (c : LanguageClient) (r : TelemetryReporter) : M unit :=
  emit (TerraformTflint c r).

(** What the host runs when the user invokes a registered command. *)
Definition invoke (callback : Callback) : M unit :=
  match callback with
  | TflintCallback c r => terraform_tflint c r
  end.

Definition constructor (client : LanguageClient) (reporter : TelemetryReporter) : M t :=
  call d <- registerCommand "terraform.tflint" (TflintCallback client reporter) in
  ret {| client := client; reporter := reporter; commands := [d] |}.

(** [this.commands.forEach((c) => c.dispose())] *)
Fixpoint forEach_dispose (cs : list Disposable) : M unit :=
  match cs with
  | [] => ret tt
  | c :: rest => exec emit (DisposeOf c) in forEach_dispose rest
  end.

Definition dispose (this : t) : M unit := forEach_dispose (commands this).

End TFLintCommands.

(** ** What the run provider imports *)

Record ThemeIcon := { icon_id : string }.

(** The tables and helpers of [terraformCloud/run], [./helpers],
    [terraformCloud/errors], [@zodios/core] and the authentication provider.
    Their bodies are outside this file: the development is generic in them. *)
Class Imports := {
  providerID : string;
  TRIGGER_REASON : string -> option string;
  RUN_SOURCE : string -> option string;
  CONFIGURATION_SOURCE : string -> option string;
  GetRunStatusIcon : string -> ThemeIcon;
  GetRunStatusMessage : string -> string;
  RelativeTimeFormat : string -> string;
  apiErrorsToString : list string -> string;
  (** [isErrorFromAlias(apiClient.api, alias, error)] on an Axios error that
      carries a response; it answers [false] when there is none. *)
  isErrorFromAlias : string -> Js.AxiosResponse -> bool
}.

(** ** View models *)

Record WorkspaceAttributes := {
  name : string;
  execution_mode : string
}.

Record WorkspaceTreeItem := {
  ws_id : string;
  ws_attributes : WorkspaceAttributes
}.

(** [vscode.MarkdownString] *)
Record MarkdownString := {
  value : string;
  supportHtml : bool;
  supportThemeIcons : bool
}.

Definition new_MarkdownString : MarkdownString :=
  {| value := EmptyString; supportHtml := false; supportThemeIcons := false |}.

Definition appendMarkdown (text : string) (md : MarkdownString) : MarkdownString :=
  {| value := value md ++ text;
     supportHtml := supportHtml md;
     supportThemeIcons := supportThemeIcons md |}.

Inductive Tooltip :=
| TooltipText (s : string)
| TooltipMarkdown (md : MarkdownString).

(** The properties of [vscode.TreeItem] that the source sets or leaves unset. *)
Record TreeItemProps := {
  label : option string;
  collapsibleState : option nat;
  iconPath : option ThemeIcon;
  description : option string;
  tooltip : option Tooltip;
  contextValue : option string
}.

Module RunTreeItem.

Record t := {
  props : TreeItemProps;
  id : string;
  attributes : RunAttributes;
  workspace : WorkspaceTreeItem;
  createdBy : option Attributes;
  configurationVersion : option Attributes;
  ingressAttributes : option Attributes;
  planAttributes : option Attributes;
  planId : option string;
  applyAttributes : option Attributes;
  applyId : option string
}.

(** [TreeItemCollapsibleState.None] *)
Definition CollapsibleNone : nat := 0.

Definition constructor `{Imports} (id : string) (attributes : RunAttributes)
    (workspace : WorkspaceTreeItem) : t :=
  {| props :=
       {| label := Some (message attributes);
          collapsibleState := Some CollapsibleNone;
          iconPath := Some (GetRunStatusIcon (status attributes));
          description :=
            Some (trigger_reason attributes ++ " " ++ created_at attributes);
          tooltip := None;
          contextValue := None |};
     id := id;
     attributes := attributes;
     workspace := workspace;
     createdBy := None;
     configurationVersion := None;
     ingressAttributes := None;
     planAttributes := None;
     planId := None;
     applyAttributes := None;
     applyId := None |}.

(** Property assignments on a run item. *)
Definition set_createdBy (v : option Attributes) (i : t) : t :=
  {| props := props i; id := id i; attributes := attributes i;
     workspace := workspace i; createdBy := v;
     configurationVersion := configurationVersion i;
     ingressAttributes := ingressAttributes i;
     planAttributes := planAttributes i; planId := planId i;
     applyAttributes := applyAttributes i; applyId := applyId i |}.

Definition set_configurationVersion (v : option Attributes) (i : t) : t :=
  {| props := props i; id := id i; attributes := attributes i;
     workspace := workspace i; createdBy := createdBy i;
     configurationVersion := v;
     ingressAttributes := ingressAttributes i;
     planAttributes := planAttributes i; planId := planId i;
     applyAttributes := applyAttributes i; applyId := applyId i |}.

Definition set_ingressAttributes (v : option Attributes) (i : t) : t :=
  {| props := props i; id := id i; attributes := attributes i;
     workspace := workspace i; createdBy := createdBy i;
     configurationVersion := configurationVersion i;
     ingressAttributes := v;
     planAttributes := planAttributes i; planId := planId i;
     applyAttributes := applyAttributes i; applyId := applyId i |}.

Definition set_planAttributes (v : option Attributes) (i : t) : t :=
  {| props := props i; id := id i; attributes := attributes i;
     workspace := workspace i; createdBy := createdBy i;
     configurationVersion := configurationVersion i;
     ingressAttributes := ingressAttributes i;
     planAttributes := v; planId := planId i;
     applyAttributes := applyAttributes i; applyId := applyId i |}.

Definition set_planId (v : option string) (i : t) : t :=
  {| props := props i; id := id i; attributes := attributes i;
     workspace := workspace i; createdBy := createdBy i;
     configurationVersion := configurationVersion i;
     ingressAttributes := ingressAttributes i;
     planAttributes := planAttributes i; planId := v;
     applyAttributes := applyAttributes i; applyId := applyId i |}.

Definition set_applyAttributes (v : option Attributes) (i : t) : t :=
  {| props := props i; id := id i; attributes := attributes i;
     workspace := workspace i; createdBy := createdBy i;
     configurationVersion := configurationVersion i;
     ingressAttributes := ingressAttributes i;
     planAttributes := planAttributes i; planId := planId i;
     applyAttributes := v; applyId := applyId i |}.

Definition set_applyId (v : option string) (i : t) : t :=
  {| props := props i; id := id i; attributes := attributes i;
     workspace := workspace i; createdBy := createdBy i;
     configurationVersion := configurationVersion i;
     ingressAttributes := ingressAttributes i;
     planAttributes := planAttributes i; planId := planId i;
     applyAttributes := applyAttributes i; applyId := v |}.

Definition set_props (p : TreeItemProps) (i : t) : t :=
  {| props := p; id := id i; attributes := attributes i;
     workspace := workspace i; createdBy := createdBy i;
     configurationVersion := configurationVersion i;
     ingressAttributes := ingressAttributes i;
     planAttributes := planAttributes i; planId := planId i;
     applyAttributes := applyAttributes i; applyId := applyId i |}.

End RunTreeItem.

Definition set_contextValue (v : option string) (p : TreeItemProps) : TreeItemProps :=
  {| label := label p; collapsibleState := collapsibleState p;
     iconPath := iconPath p; description := description p;
     tooltip := tooltip p; contextValue := v |}.

Definition set_tooltip (v : option Tooltip) (p : TreeItemProps) : TreeItemProps :=
  {| label := label p; collapsibleState := collapsibleState p;
     iconPath := iconPath p; description := description p;
     tooltip := v; contextValue := contextValue p |}.

(** An element of a [vscode.TreeItem[]]: an object literal or a run item. *)
Inductive TreeItem :=
| PlainTreeItem (p : TreeItemProps)
| RunItem (r : RunTreeItem.t).

(** ** [runMarkdown] *)

(** Truthiness of [item.configurationVersion.source]: present and not the
    empty string. *)
Definition truthy_string (v : option string) : bool :=
  match v with
  | Some s => negb (String.eqb s EmptyString)
  | None => false
  end.

(** Calling a string method on [undefined]. *)
Definition TypeError (method : string) : Js.Thrown :=
  Js.ErrorObject Js.PlainErrorClass
    ("Cannot read properties of undefined (reading '" ++ method ++ "')") None.

Definition set_supportHtml (b : bool) (md : MarkdownString) : MarkdownString :=
  {| value := value md; supportHtml := b; supportThemeIcons := supportThemeIcons md |}.

Definition set_supportThemeIcons (b : bool) (md : MarkdownString) : MarkdownString :=
  {| value := value md; supportHtml := supportHtml md; supportThemeIcons := b |}.

(** The [<img src=... width=20>] tag of the source's templates. *)
Definition img (src : option string) : string :=
  "<img src=" ++ Js.dq ++ Js.to_string src ++ Js.dq ++ " width=" ++ Js.dq ++ "20" ++ Js.dq ++ ">".

Definition runMarkdown `{Imports} (item : RunTreeItem.t) : Js.Result MarkdownString :=
  let markdown := new_MarkdownString in
  let markdown := set_supportHtml true markdown in
  let markdown := set_supportThemeIcons true markdown in
  let createdAtTime := RelativeTimeFormat (created_at (RunTreeItem.attributes item)) in
  let markdown :=
    match RunTreeItem.createdBy item with
    | Some createdBy =>
        appendMarkdown
          (img (createdBy !! "avatar-url") ++ " **" ++
           Js.to_string (createdBy !! "username") ++ "**") markdown
    | None =>
        match RunTreeItem.ingressAttributes item with
        | Some ingressAttributes =>
            appendMarkdown
              (img (ingressAttributes !! "sender-avatar-url") ++ " **" ++
               Js.to_string (ingressAttributes !! "sender-username") ++ "**") markdown
        | None => markdown
        end
    end in
  let triggerReason := TRIGGER_REASON (trigger_reason (RunTreeItem.attributes item)) in
  let icon := GetRunStatusIcon (status (RunTreeItem.attributes item)) in
  let msg := GetRunStatusMessage (status (RunTreeItem.attributes item)) in
  let markdown :=
    appendMarkdown
      (" " ++ Js.to_string triggerReason ++ " from " ++
       Js.to_string (RUN_SOURCE (source (RunTreeItem.attributes item))) ++ " " ++
       createdAtTime) markdown in
  let markdown :=
    appendMarkdown
      (Js.nl ++ Js.nl ++
       "-----" ++ Js.nl ++
       "_____" ++ Js.nl ++
       "| | |" ++ Js.nl ++
       "-:|--" ++ Js.nl ++
       "| **Run ID**   | `" ++ RunTreeItem.id item ++ "` |" ++ Js.nl ++
       "| **Status** | $(" ++ icon_id icon ++ ") " ++ msg ++ " |" ++ Js.nl) markdown in
  let trailer (markdown : MarkdownString) :=
    appendMarkdown
      ("| **Trigger** | " ++ Js.to_string triggerReason ++ " |" ++ Js.nl ++
       "| **Execution Mode** | " ++
       execution_mode (ws_attributes (RunTreeItem.workspace item)) ++ " |" ++ Js.nl)
      markdown in
  let plain (markdown : MarkdownString) :=
    appendMarkdown
      ("| **Configuration** | From " ++ source (RunTreeItem.attributes item) ++ " |" ++
       Js.nl) markdown in
  match RunTreeItem.ingressAttributes item, RunTreeItem.configurationVersion item with
  | Some ingressAttributes, Some configurationVersion =>
      if truthy_string (configurationVersion !! "source") then
        match ingressAttributes !! "commit-sha" with
        | None => Js.Throw (TypeError "slice")
        | Some commitSha =>
            let shortCommitSha := Js.slice0 8 commitSha in
            let cfgSource :=
              match configurationVersion !! "source" with
              | Some s => CONFIGURATION_SOURCE s
              | None => None
              end in
            match ingressAttributes !! "commit-message" with
            | None => Js.Throw (TypeError "split")
            | Some commitMessage =>
                let markdown :=
                  appendMarkdown
                    ("| **Configuration** | From " ++ Js.to_string cfgSource ++ " by " ++
                     img (ingressAttributes !! "sender-avatar-url") ++ " " ++
                     Js.to_string (ingressAttributes !! "sender-username") ++
                     " **Branch** " ++ Js.to_string (ingressAttributes !! "branch") ++
                     " **Repo** [" ++ Js.to_string (ingressAttributes !! "identifier") ++
                     "](" ++ Js.to_string (ingressAttributes !! "clone-url") ++ ") |" ++
                     Js.nl ++
                     "| **Commit** | [" ++ shortCommitSha ++ "](" ++
                     Js.to_string (ingressAttributes !! "commit-url") ++ "): " ++
                     Js.first_line commitMessage ++ " |" ++ Js.nl) markdown in
                Js.Ok (trailer markdown)
            end
        end
      else Js.Ok (trailer (plain markdown))
  | _, _ => Js.Ok (trailer (plain markdown))
  end.

(** ** [RunTreeDataProvider] *)

(** The body of a successful [listRuns] response. *)
Record RunsResponse := {
  runs_data : list Run;
  runs_included : option (list IncludedObject);
  total_count : Z    (* [meta.pagination['total-count']] *)
}.

(** What the outside world answers: the stored workspace state, the
    authentication session, and the outcome of a [listRuns] request. *)
Record Env := {
  workspaceState : gmap string string;
  session : option AuthenticationSession;
  listRuns_outcome : ListRunsRequest -> Js.Result RunsResponse
}.

(** [workspaceState.get(key, defaultValue)] *)
Definition workspaceState_get (env : Env) (key defaultValue : string) : string :=
  match workspaceState env !! key with
  | Some v => v
  | None => defaultValue
  end.

Definition getSession (env : Env) (providerId : string) (scopes : list string)
    (createIfNone : bool) : M (option AuthenticationSession) :=
  exec emit (GetSession providerId scopes createIfNone) in ret (session env).

Definition apiClient_listRuns (env : Env) (request : ListRunsRequest)
    : M (Js.Result RunsResponse) :=
  exec emit (ListRuns request) in ret (listRuns_outcome env request).

Definition qualifying_statuses : list string := ["errored"; "canceled"; "finished"].

Module RunTreeDataProvider.

Record t := {
  ctx : ExtensionContext;
  reporter : TelemetryReporter;
  outputChannel : OutputChannel;
  didChangeTreeData : EventEmitter;
  activeWorkspace : option WorkspaceTreeItem
}.

Definition refresh (this : t) (workspaceItem : option WorkspaceTreeItem) : M t :=
  let this :=
    {| ctx := ctx this; reporter := reporter this;
       outputChannel := outputChannel this;
       didChangeTreeData := didChangeTreeData this;
       activeWorkspace := workspaceItem |} in
  exec emit (Fire (didChangeTreeData this)) in ret this.

Definition getTreeItem (element : TreeItem) : TreeItem := element.

(** The body of the [for] loop of [getRuns], for one run. *)
Definition makeRunItem `{Imports} (included : option (list IncludedObject))
    (run : Run) (activeWorkspace : WorkspaceTreeItem) : RunTreeItem.t :=
  let runItem := RunTreeItem.constructor (run_id run) (run_attributes run) activeWorkspace in
  match included with
  | None => runItem
  | Some included =>
      let runItem :=
        RunTreeItem.set_createdBy (findCreatedByAttributes included run) runItem in
      let runItem :=
        match findConfigurationVersionAttributes included run with
        | Some cfgVersion =>
            let runItem :=
              RunTreeItem.set_configurationVersion (Some (inc_attributes cfgVersion))
                runItem in
            let ingressAttrs := findIngressAttributes included cfgVersion in
            RunTreeItem.set_ingressAttributes ingressAttrs runItem
        | None => runItem
        end in
      let runItem :=
        match run_relationships run !! "plan" with
        | Some _ =>
            match findPlanAttributes included run with
            | Some planAttributes =>
                if Js.includes qualifying_statuses (planAttributes !! "status") then
                  let runItem :=
                    RunTreeItem.set_planId (ref_id (run_relationships run !! "plan"))
                      runItem in
                  let runItem :=
                    RunTreeItem.set_planAttributes (Some planAttributes) runItem in
                  RunTreeItem.set_props
                    (set_contextValue (Some "hasPlan") (RunTreeItem.props runItem))
                    runItem
                else runItem
            | None => runItem
            end
        | None => runItem
        end in
      match run_relationships run !! "apply" with
      | Some _ =>
          match findApplyAttributes included run with
          | Some applyAttributes =>
              if Js.includes qualifying_statuses (applyAttributes !! "status") then
                let runItem :=
                  RunTreeItem.set_applyId (ref_id (run_relationships run !! "apply"))
                    runItem in
                let runItem :=
                  RunTreeItem.set_applyAttributes (Some applyAttributes) runItem in
                RunTreeItem.set_props
                  (set_contextValue
                     (Js.plus_assign (contextValue (RunTreeItem.props runItem)) "hasApply")
                     (RunTreeItem.props runItem))
                  runItem
              else runItem
          | None => runItem
          end
      | None => runItem
      end
  end.

(** [for (let index = 0; index < runs.data.length; index++) ... items.push] *)
Fixpoint runLoop `{Imports} (included : option (list IncludedObject))
    (activeWorkspace : WorkspaceTreeItem) (rest : list Run)
    (items : list RunTreeItem.t) : list RunTreeItem.t :=
  match rest with
  | [] => items
  | run :: rest =>
      runLoop included activeWorkspace rest
        (items ++ [makeRunItem included run activeWorkspace])
  end.

Definition status_is (error : Js.Thrown) (code : Z) : bool :=
  match Js.response_status error with
  | Some s => Z.eqb s code
  | None => false
  end.

(** The [catch] block of [getRuns]. *)
Definition catchListRuns `{Imports} (this : t) (activeWorkspace workspace : WorkspaceTreeItem)
    (error : Js.Thrown) : M (list TreeItem) :=
  let message :=
    "Failed to list runs in " ++ name (ws_attributes activeWorkspace) ++
    " (" ++ ws_id workspace ++ "): " in
  let afterAxios : M (list TreeItem) :=
    match error with
    | Js.ErrorObject _ error_message _ =>
        let message := message ++ error_message in
        exec emit (ShowErrorMessage message) in
        exec emit (SendTelemetryException (reporter this) error) in
        ret []
    | _ =>
        let message :=
          match error with
          | Js.StringValue s => message ++ s
          | _ => message
          end in
        exec emit (ShowErrorMessage message) in
        ret []
    end in
  if Js.instanceof_ZodiosError error then
    exec emit (HandleZodiosError error message (outputChannel this) (reporter this)) in
    ret []
  else if Js.isAxiosError error then
    if status_is error 401 then
      exec emit HandleAuthError in ret []
    else if status_is error 404 then
      exec emit
        (ShowWarningMessage
           ("Workspace " ++ name (ws_attributes activeWorkspace) ++
            " (" ++ ws_id workspace ++ ") not found, please pick another one")) in
      ret []
    else
      match error with
      | Js.ErrorObject _ _ (Some response) =>
          if isErrorFromAlias "listRuns" response then
            let message := message ++ apiErrorsToString (Js.resp_errors response) in
            exec emit (ShowErrorMessage message) in
            exec emit (SendTelemetryException (reporter this) error) in
            ret []
          else afterAxios
      | _ => afterAxios
      end
  else afterAxios.

Definition listRunsRequest (workspace : WorkspaceTreeItem) : ListRunsRequest :=
  {| workspace_id := ws_id workspace;
     page_size := 100;
     include := ["plan"; "apply"; "configuration_version.ingress_attributes";
                 "created_by"] |}.

Definition getRuns `{Imports} (env : Env) (this : t) (workspace : WorkspaceTreeItem)
    : M (list TreeItem) :=
  let organization := workspaceState_get env "terraform.cloud.organization" EmptyString in
  if String.eqb organization EmptyString then ret []
  else
    call session <- getSession env providerID [] false in
    match session with
    | None => ret []
    | Some _ =>
        match activeWorkspace this with
        | None => ret []
        | Some activeWorkspace =>
            call outcome <- apiClient_listRuns env (listRunsRequest workspace) in
            match outcome with
            | Js.Ok runs =>
                exec emit
                  (SendTelemetryEvent (reporter this) "tfc-fetch-runs"
                     [("totalCount", total_count runs)]) in
                if Nat.eqb (List.length (runs_data runs)) 0 then
                  ret
                    [PlainTreeItem
                       {| label :=
                            Some ("No runs found for " ++
                                  name (ws_attributes activeWorkspace));
                          collapsibleState := None;
                          iconPath := None;
                          description := None;
                          tooltip :=
                            Some (TooltipText
                                    ("No runs found for " ++
                                     name (ws_attributes activeWorkspace)));
                          contextValue := Some "empty" |}]
                else
                  ret (map RunItem
                         (runLoop (runs_included runs) activeWorkspace
                            (runs_data runs) []))
            | Js.Throw error => catchListRuns this activeWorkspace workspace error
            end
        end
    end.

(** [getRuns] is [async]: it never throws synchronously, so the [try] of
    [getChildren] always takes its first branch. *)
Definition getChildren `{Imports} (env : Env) (this : t) (element : option TreeItem)
    : M (list TreeItem) :=
  match element with
  | Some element => ret [element]
  | None =>
      match activeWorkspace this with
      | None => ret []
      | Some workspace => getRuns env this workspace
      end
  end.

Definition item_set_tooltip (v : option Tooltip) (item : TreeItem) : TreeItem :=
  match item with
  | PlainTreeItem p => PlainTreeItem (set_tooltip v p)
  | RunItem r => RunItem (RunTreeItem.set_props (set_tooltip v (RunTreeItem.props r)) r)
  end.

Definition resolveTreeItem `{Imports} (item : TreeItem) (element : RunTreeItem.t)
    : Js.Result TreeItem :=
  match runMarkdown element with
  | Js.Ok md => Js.Ok (item_set_tooltip (Some (TooltipMarkdown md)) item)
  | Js.Throw e => Js.Throw e
  end.

Definition dispose (this : t) : M unit := ret tt.

End RunTreeDataProvider.

(** ** The commands of the run provider *)

(** [vscode.Uri.parse(text)], kept as the text it was parsed from. *)
Record Uri := { uri_text : string }.

Definition Uri_parse (text : string) : Uri := {| uri_text := text |}.

Record TextDocument := { document_handle : nat }.

(** The closures the provider's constructor registers. They capture [this],
    whose fields they read when invoked. *)
Inductive RunCallback :=
| RunsRefresh
| RunViewInBrowser
| PlanDownloadLog
| ApplyDownloadLog
| ApplyViewInBrowser.

(** The calls of the provider's constructor and commands: those already in
    [Event], and the ones only the commands make. *)
Inductive Call :=
| Logged (e : Event)
| RegisterRunCommand (command : string) (callback : RunCallback) (d : Disposable)
| OpenExternal (target : Uri)
| OpenTextDocument (uri : Uri)
| ShowTextDocument (doc : TextDocument) (preview : bool).

(** The editor window: the next free handle, the array [ctx.subscriptions]
    and the calls made so far. *)
Record Window := {
  next_handle : nat;
  subscriptions : list Disposable;
  calls : list Call
}.

Definition W (A : Type) : Type := Window -> A * Window.

Definition wret {A : Type} (a : A) : W A := fun w => (a, w).

Definition wbind {A B : Type} (m : W A) (k : A -> W B) : W B :=
  fun w => let (a, w') := m w in k a w'.

Notation "'wcall' x <- m 'in' k" := (wbind m (fun x => k))
  (at level 10, x name, m at level 100, k at level 200).
Notation "'wexec' m 'in' k" := (wbind m (fun _ => k))
  (at level 10, m at level 100, k at level 200).

Definition log (c : Call) : W unit :=
  fun w => (tt, {| next_handle := next_handle w;
                   subscriptions := subscriptions w;
                   calls := calls w ++ [c] |}).

(** A computation over [Host] run in the window: its calls are appended,
    in order, to the window's. *)
Definition lift {A : Type} (m : M A) : W A :=
  fun w =>
    let (a, h) := m {| next_disposable := next_handle w; trace := [] |} in
    (a, {| next_handle := next_disposable h;
           subscriptions := subscriptions w;
           calls := calls w ++ map Logged (trace h) |}).

Definition registerRunCommand (command : string) (callback : RunCallback) : W Disposable :=
  fun w =>
    let d := {| disposable_handle := next_handle w |} in
    (d, {| next_handle := S (next_handle w);
           subscriptions := subscriptions w;
           calls := calls w ++ [RegisterRunCommand command callback d] |}).

(** [this.ctx.subscriptions.push(...items)] *)
Definition subscriptions_push (items : list Disposable) : W unit :=
  fun w => (tt, {| next_handle := next_handle w;
                   subscriptions := subscriptions w ++ items;
                   calls := calls w |}).

(** [new vscode.EventEmitter()] *)
Definition new_EventEmitter : W EventEmitter :=
  fun w => ({| emitter_handle := next_handle w |},
            {| next_handle := S (next_handle w);
               subscriptions := subscriptions w;
               calls := calls w |}).

(** Truthiness of [run.planId] and [run.applyId]. *)
Definition truthy_id (v : option string) : option string :=
  match v with
  | Some s => if String.eqb s EmptyString then None else Some s
  | None => None
  end.

Section RunCommands.

(** [TerraformCloudWebUrl] of [terraformCloud], and what opening a text
    document answers. *)
Variable TerraformCloudWebUrl : string.
Variable openTextDocument_outcome : Uri -> Js.Result TextDocument.

Definition openTextDocument (uri : Uri) : W (Js.Result TextDocument) :=
  wexec log (OpenTextDocument uri) in wret (openTextDocument_outcome uri).

(** The field initialisers and the body of the constructor. *)
Definition RunTreeDataProvider_constructor (ctx : ExtensionContext)
    (reporter : TelemetryReporter) (outputChannel : OutputChannel)
    : W RunTreeDataProvider.t :=
  wcall didChangeTreeData <- new_EventEmitter in
  let this :=
    {| RunTreeDataProvider.ctx := ctx;
       RunTreeDataProvider.reporter := reporter;
       RunTreeDataProvider.outputChannel := outputChannel;
       RunTreeDataProvider.didChangeTreeData := didChangeTreeData;
       RunTreeDataProvider.activeWorkspace := None |} in
  wcall d1 <- registerRunCommand "terraform.cloud.runs.refresh" RunsRefresh in
  wexec subscriptions_push [d1] in
  wcall d2 <- registerRunCommand "terraform.cloud.run.viewInBrowser" RunViewInBrowser in
  wcall d3 <- registerRunCommand "terraform.cloud.run.plan.downloadLog" PlanDownloadLog in
  wcall d4 <- registerRunCommand "terraform.cloud.run.apply.downloadLog" ApplyDownloadLog in
  wcall d5 <- registerRunCommand "terraform.cloud.run.apply.viewInBrowser"
               ApplyViewInBrowser in
  wexec subscriptions_push [d2; d3; d4; d5] in
  wret this.

(** ['terraform.cloud.runs.refresh'] *)
Definition runsRefresh (this : RunTreeDataProvider.t) : W RunTreeDataProvider.t :=
  wexec lift (emit (SendTelemetryEvent (RunTreeDataProvider.reporter this)
                      "tfc-runs-refresh" [])) in
  lift (RunTreeDataProvider.refresh this (RunTreeDataProvider.activeWorkspace this)).

(** ['terraform.cloud.run.viewInBrowser'] *)
Definition runViewInBrowser (env : Env) (this : RunTreeDataProvider.t)
    (run : RunTreeItem.t) : W unit :=
  let orgName := workspaceState_get env "terraform.cloud.organization" EmptyString in
  if String.eqb orgName EmptyString then wret tt
  else
    wexec lift (emit (SendTelemetryEvent (RunTreeDataProvider.reporter this)
                        "tfc-runs-viewInBrowser" [])) in
    let runURL :=
      TerraformCloudWebUrl ++ "/" ++ orgName ++ "/workspaces/" ++
      name (ws_attributes (RunTreeItem.workspace run)) ++ "/runs/" ++
      RunTreeItem.id run in
    log (OpenExternal (Uri_parse runURL)).

(** ['terraform.cloud.run.plan.downloadLog'] *)
Definition planDownloadLog (run : RunTreeItem.t) : W (Js.Result unit) :=
  match truthy_id (RunTreeItem.planId run) with
  | None =>
      wexec lift (emit (ShowErrorMessage ("No plan found for " ++ RunTreeItem.id run))) in
      wret (Js.Ok tt)
  | Some planId =>
      let planUri := Uri_parse ("vscode-terraform://plan/" ++ planId) in
      wcall outcome <- openTextDocument planUri in
      match outcome with
      | Js.Ok doc =>
          wexec log (ShowTextDocument doc false) in
          wret (Js.Ok tt)
      | Js.Throw e => wret (Js.Throw e)
      end
  end.

(** ['terraform.cloud.run.apply.downloadLog'] *)
Definition applyDownloadLog (run : RunTreeItem.t) : W (Js.Result unit) :=
  match truthy_id (RunTreeItem.applyId run) with
  | None =>
      wexec lift (emit (ShowErrorMessage ("No apply found for " ++ RunTreeItem.id run))) in
      wret (Js.Ok tt)
  | Some applyId =>
      let applyUri := Uri_parse ("vscode-terraform://apply/" ++ applyId) in
      wcall outcome <- openTextDocument applyUri in
      match outcome with
      | Js.Ok doc =>
          wexec log (ShowTextDocument doc false) in
          wret (Js.Ok tt)
      | Js.Throw e => wret (Js.Throw e)
      end
  end.

(** ['terraform.cloud.run.apply.viewInBrowser'] *)
Definition applyViewInBrowser (env : Env) (run : RunTreeItem.t) : W unit :=
  let orgName := workspaceState_get env "terraform.cloud.organization" EmptyString in
  if String.eqb orgName EmptyString then wret tt
  else
    let runURL :=
      TerraformCloudWebUrl ++ "/" ++ orgName ++ "/workspaces/" ++
      name (ws_attributes (RunTreeItem.workspace run)) ++ "/runs/" ++
      RunTreeItem.id run in
    log (OpenExternal (Uri_parse runURL)).

(** What the host runs when the user invokes a registered command on a run
    item: the provider afterwards, and whether the handler completed. *)
Definition invokeRunCommand (env : Env) (callback : RunCallback)
    (this : RunTreeDataProvider.t) (run : RunTreeItem.t)
    : W (RunTreeDataProvider.t * Js.Result unit) :=
  match callback with
  | RunsRefresh =>
      wcall this <- runsRefresh this in wret (this, Js.Ok tt)
  | RunViewInBrowser =>
      wexec runViewInBrowser env this run in wret (this, Js.Ok tt)
  | PlanDownloadLog =>
      wcall r <- planDownloadLog run in wret (this, r)
  | ApplyDownloadLog =>
      wcall r <- applyDownloadLog run in wret (this, r)
  | ApplyViewInBrowser =>
      wexec applyViewInBrowser env run in wret (this, Js.Ok tt)
  end.

End RunCommands.

(** ** Specification vocabulary *)

(** The relationship links to the resource with id [i]. *)
Definition references (rel : option Relationship) (i : string) : Prop :=
  exists r d, rel = Some r /\ data r = Some d /\ rel_id d = Some i.

(** The relationship, its [data] or the [id] in it is missing. *)
Definition reference_absent (rel : option Relationship) : Prop :=
  rel = None \/
  (exists r, rel = Some r /\ data r = None) \/
  (exists r d, rel = Some r /\ data r = Some d /\ rel_id d = None).

Definition matches (ty : string) (rel : option Relationship) (o : IncludedObject) : Prop :=
  inc_type o = ty /\ references rel (inc_id o).

(** [result] is the first element of [included] that matches, and
    [undefined] when none does. *)
Definition first_match (ty : string) (rel : option Relationship)
    (included : list IncludedObject) (result : option IncludedObject) : Prop :=
  match result with
  | Some o =>
      exists before after,
        included = (before ++ o :: after)%list /\
        matches ty rel o /\
        Forall (fun x => ~ matches ty rel x) before
  | None => Forall (fun x => ~ matches ty rel x) included
  end.

Definition lookup_spec (ty : string) (rel : option Relationship)
    (included : list IncludedObject) (result : option IncludedObject) : Prop :=
  first_match ty rel included result /\ (reference_absent rel -> result = None).

(** The lookup helpers the source declares, and a uniform way to run one. *)
Inductive LookupHelper :=
| FindConfigurationVersionAttributes
| FindPlanAttributes
| FindApplyAttributes
| FindCreatedByAttributes
| FindIngressAttributes.

Definition lookup_helpers : list LookupHelper :=
  [FindConfigurationVersionAttributes; FindPlanAttributes; FindApplyAttributes;
   FindCreatedByAttributes; FindIngressAttributes].

Inductive LookupResult :=
| Undefined
| WholeObject (o : IncludedObject)
| AttributesOnly (a : Attributes).

Definition attributes_or_undefined (r : option Attributes) : LookupResult :=
  match r with
  | Some a => AttributesOnly a
  | None => Undefined
  end.

Definition run_helper (h : LookupHelper) (included : list IncludedObject) (run : Run)
    (cfgVersion : ConfigurationVersion) : LookupResult :=
  match h with
  | FindConfigurationVersionAttributes =>
      match findConfigurationVersionAttributes included run with
      | Some o => WholeObject o
      | None => Undefined
      end
  | FindPlanAttributes => attributes_or_undefined (findPlanAttributes included run)
  | FindApplyAttributes => attributes_or_undefined (findApplyAttributes included run)
  | FindCreatedByAttributes => attributes_or_undefined (findCreatedByAttributes included run)
  | FindIngressAttributes =>
      attributes_or_undefined (findIngressAttributes included cfgVersion)
  end.

(** The resource type a helper looks for and the relationship it follows. *)
Definition helper_type (h : LookupHelper) : string :=
  match h with
  | FindConfigurationVersionAttributes => "configuration-versions"
  | FindPlanAttributes => "plans"
  | FindApplyAttributes => "applies"
  | FindCreatedByAttributes => "users"
  | FindIngressAttributes => "ingress-attributes"
  end.

Definition helper_relationship (h : LookupHelper) (run : Run)
    (cfgVersion : ConfigurationVersion) : option Relationship :=
  match h with
  | FindConfigurationVersionAttributes => run_relationships run !! "configuration-version"
  | FindPlanAttributes => run_relationships run !! "plan"
  | FindApplyAttributes => run_relationships run !! "apply"
  | FindCreatedByAttributes => run_relationships run !! "created-by"
  | FindIngressAttributes => inc_relationships cfgVersion !! "ingress-attributes"
  end.

Definition helper_result (h : LookupHelper) (r : option IncludedObject) : LookupResult :=
  match r, h with
  | None, _ => Undefined
  | Some o, FindConfigurationVersionAttributes => WholeObject o
  | Some o, _ => AttributesOnly (inc_attributes o)
  end.

(** The reading of the helpers as four functions that all return the
    matched object's attributes. *)
Definition four_attribute_helpers : Prop :=
  List.length lookup_helpers = 4 /\
  forall h included run cfgVersion,
    match run_helper h included run cfgVersion with
    | WholeObject _ => False
    | _ => True
    end.

(** An empty host, to read off the calls a computation makes. *)
Definition fresh_host : Host := {| next_disposable := 0; trace := [] |}.

(** The host with [calls] made after those of [h]. *)
Definition after (h : Host) (calls : list Event) : Host :=
  {| next_disposable := next_disposable h; trace := trace h ++ calls |}.

(** The function behind a call, forgetting its arguments. *)
Inductive CallKind :=
| KRegisterCommand | KDispose | KTerraformTflint | KGetSession | KListRuns
| KSendTelemetryEvent | KSendTelemetryException | KShowErrorMessage
| KShowWarningMessage | KHandleZodiosError | KHandleAuthError | KFire.

Definition kind_of (e : Event) : CallKind :=
  match e with
  | RegisterCommand _ _ _ => KRegisterCommand
  | DisposeOf _ => KDispose
  | TerraformTflint _ _ => KTerraformTflint
  | GetSession _ _ _ => KGetSession
  | ListRuns _ => KListRuns
  | SendTelemetryEvent _ _ _ => KSendTelemetryEvent
  | SendTelemetryException _ _ => KSendTelemetryException
  | ShowErrorMessage _ => KShowErrorMessage
  | ShowWarningMessage _ => KShowWarningMessage
  | HandleZodiosError _ _ _ _ => KHandleZodiosError
  | HandleAuthError => KHandleAuthError
  | Fire _ => KFire
  end.

(** Calls that report a failure to the user, directly or through
    [uiHelpers]. *)
Definition is_report (e : Event) : bool :=
  match e with
  | ShowErrorMessage _ | ShowWarningMessage _
  | HandleZodiosError _ _ _ _ | HandleAuthError => true
  | _ => false
  end.

(** The [listRuns] requests among some calls. *)
Fixpoint api_requests (calls : list Event) : list ListRunsRequest :=
  match calls with
  | [] => []
  | ListRuns request :: rest => request :: api_requests rest
  | _ :: rest => api_requests rest
  end.

(** The calls the [catch] block of [getRuns] makes for a thrown value. *)
Definition handler_calls `{Imports} (this : RunTreeDataProvider.t)
    (activeWorkspace workspace : WorkspaceTreeItem) (error : Js.Thrown) : list Event :=
  trace (snd (RunTreeDataProvider.catchListRuns this activeWorkspace workspace error
                fresh_host)).

Inductive Shape := ShapeA | ShapeB | ShapeC.

(** The reading of the [catch] block as telling three shapes of error
    apart and no more: thrown values fall into three shapes, and the shape
    decides which host functions are called. *)
Definition three_error_shapes `{Imports} (this : RunTreeDataProvider.t)
    (activeWorkspace workspace : WorkspaceTreeItem) : Prop :=
  exists shape : Js.Thrown -> Shape,
    forall e1 e2,
      shape e1 = shape e2 ->
      map kind_of (handler_calls this activeWorkspace workspace e1) =
      map kind_of (handler_calls this activeWorkspace workspace e2).

(** An Axios error the handler has no special case for. *)
Definition unrecognised `{Imports} (response : option Js.AxiosResponse) : Prop :=
  match response with
  | None => True
  | Some r =>
      Js.resp_status r <> 401%Z /\ Js.resp_status r <> 404%Z /\
      isErrorFromAlias "listRuns" r = false
  end.

(** The text every failure message of [getRuns] starts with. *)
Definition failure_prefix (activeWorkspace workspace : WorkspaceTreeItem) : string :=
  "Failed to list runs in " ++ name (ws_attributes activeWorkspace) ++
  " (" ++ ws_id workspace ++ "): ".

(** The seven cases of the [catch] block, each with the calls it makes. *)
Inductive handled `{Imports} (this : RunTreeDataProvider.t)
    (activeWorkspace workspace : WorkspaceTreeItem) : Js.Thrown -> list Event -> Prop :=
| handled_zodios msg response :
    handled this activeWorkspace workspace
      (Js.ErrorObject Js.ZodiosErrorClass msg response)
      [HandleZodiosError (Js.ErrorObject Js.ZodiosErrorClass msg response)
         (failure_prefix activeWorkspace workspace)
         (RunTreeDataProvider.outputChannel this) (RunTreeDataProvider.reporter this)]
| handled_unauthorized msg r :
    Js.resp_status r = 401%Z ->
    handled this activeWorkspace workspace
      (Js.ErrorObject Js.AxiosErrorClass msg (Some r))
      [HandleAuthError]
| handled_not_found msg r :
    Js.resp_status r = 404%Z ->
    handled this activeWorkspace workspace
      (Js.ErrorObject Js.AxiosErrorClass msg (Some r))
      [ShowWarningMessage
         ("Workspace " ++ name (ws_attributes activeWorkspace) ++
          " (" ++ ws_id workspace ++ ") not found, please pick another one")]
| handled_api_error msg r :
    Js.resp_status r <> 401%Z ->
    Js.resp_status r <> 404%Z ->
    isErrorFromAlias "listRuns" r = true ->
    handled this activeWorkspace workspace
      (Js.ErrorObject Js.AxiosErrorClass msg (Some r))
      [ShowErrorMessage
         (failure_prefix activeWorkspace workspace ++ apiErrorsToString (Js.resp_errors r));
       SendTelemetryException (RunTreeDataProvider.reporter this)
         (Js.ErrorObject Js.AxiosErrorClass msg (Some r))]
| handled_error cls msg response :
    cls = Js.PlainErrorClass \/ (cls = Js.AxiosErrorClass /\ unrecognised response) ->
    handled this activeWorkspace workspace
      (Js.ErrorObject cls msg response)
      [ShowErrorMessage
         (failure_prefix activeWorkspace workspace ++ msg);
       SendTelemetryException (RunTreeDataProvider.reporter this)
         (Js.ErrorObject cls msg response)]
| handled_string s :
    handled this activeWorkspace workspace (Js.StringValue s)
      [ShowErrorMessage
         (failure_prefix activeWorkspace workspace ++ s)]
| handled_other :
    handled this activeWorkspace workspace Js.OtherValue
      [ShowErrorMessage
         (failure_prefix activeWorkspace workspace)].

(** The stored organization name is set and a session exists. *)
Definition signed_in (env : Env) : bool :=
  negb (String.eqb (workspaceState_get env "terraform.cloud.organization" EmptyString)
          EmptyString) &&
  match session env with Some _ => true | None => false end.

(** The placeholder shown for a workspace without runs. *)
Definition no_runs_item (activeWorkspace : WorkspaceTreeItem) : TreeItem :=
  PlainTreeItem
    {| label := Some ("No runs found for " ++ name (ws_attributes activeWorkspace));
       collapsibleState := None;
       iconPath := None;
       description := None;
       tooltip :=
         Some (TooltipText ("No runs found for " ++ name (ws_attributes activeWorkspace)));
       contextValue := Some "empty" |}.

(** A status with which a plan or an apply has come to an end. *)
Definition ended (st : option string) : Prop :=
  st = Some "errored" \/ st = Some "canceled" \/ st = Some "finished".

(** The run has a [plan] relationship and the plan it links to is among the
    included objects, with attributes [attrs] whose status has ended. *)
Definition plan_qualifies (included : option (list IncludedObject)) (run : Run)
    (attrs : Attributes) : Prop :=
  exists inc,
    included = Some inc /\
    is_Some (run_relationships run !! "plan") /\
    findPlanAttributes inc run = Some attrs /\
    ended (attrs !! "status").

Definition apply_qualifies (included : option (list IncludedObject)) (run : Run)
    (attrs : Attributes) : Prop :=
  exists inc,
    included = Some inc /\
    is_Some (run_relationships run !! "apply") /\
    findApplyAttributes inc run = Some attrs /\
    ended (attrs !! "status").

(** The context value carries the plan marker, resp. the apply marker. *)
Definition has_plan_marker (item : RunTreeItem.t) : Prop :=
  exists rest, contextValue (RunTreeItem.props item) = Some ("hasPlan" ++ rest).

Definition has_apply_marker (item : RunTreeItem.t) : Prop :=
  exists front, contextValue (RunTreeItem.props item) = Some (front ++ "hasApply").

(** The gate of the loop body, as a function: the attributes that pass. *)
Definition gate (rel : option Relationship) (found : option Attributes)
    : option Attributes :=
  match rel, found with
  | Some _, Some attrs =>
      if Js.includes qualifying_statuses (attrs !! "status") then Some attrs else None
  | _, _ => None
  end.

Definition passing_plan (included : option (list IncludedObject)) (run : Run)
    : option Attributes :=
  match included with
  | Some inc => gate (run_relationships run !! "plan") (findPlanAttributes inc run)
  | None => None
  end.

Definition passing_apply (included : option (list IncludedObject)) (run : Run)
    : option Attributes :=
  match included with
  | Some inc => gate (run_relationships run !! "apply") (findApplyAttributes inc run)
  | None => None
  end.

(** The plan fields of [item] are set exactly when the plan of [run]
    qualifies, and the apply fields exactly when its apply does. *)
Definition plan_gated (included : option (list IncludedObject)) (run : Run)
    (item : RunTreeItem.t) : Prop :=
  (forall attrs,
     plan_qualifies included run attrs ->
     (exists planId,
        references (run_relationships run !! "plan") planId /\
        RunTreeItem.planId item = Some planId) /\
     RunTreeItem.planAttributes item = Some attrs /\
     has_plan_marker item) /\
  ((~ exists attrs, plan_qualifies included run attrs) ->
   RunTreeItem.planId item = None /\
   RunTreeItem.planAttributes item = None /\
   ~ has_plan_marker item).

Definition apply_gated (included : option (list IncludedObject)) (run : Run)
    (item : RunTreeItem.t) : Prop :=
  (forall attrs,
     apply_qualifies included run attrs ->
     (exists applyId,
        references (run_relationships run !! "apply") applyId /\
        RunTreeItem.applyId item = Some applyId) /\
     RunTreeItem.applyAttributes item = Some attrs /\
     has_apply_marker item) /\
  ((~ exists attrs, apply_qualifies included run attrs) ->
   RunTreeItem.applyId item = None /\
   RunTreeItem.applyAttributes item = None /\
   ~ has_apply_marker item).

(** The context value in each of the four combinations. *)
Definition contextValue_spec (included : option (list IncludedObject)) (run : Run)
    (item : RunTreeItem.t) : Prop :=
  let plan := exists attrs, plan_qualifies included run attrs in
  let apply := exists attrs, apply_qualifies included run attrs in
  (~ plan /\ ~ apply -> contextValue (RunTreeItem.props item) = None) /\
  (plan /\ ~ apply -> contextValue (RunTreeItem.props item) = Some "hasPlan") /\
  (plan /\ apply -> contextValue (RunTreeItem.props item) = Some "hasPlanhasApply") /\
  (~ plan /\ apply -> contextValue (RunTreeItem.props item) = Some "undefinedhasApply").

(** The parts of the tooltip, in the order they appear. *)

(** Who started the run: the creator when resolved, otherwise the VCS
    sender when the ingress attributes are resolved, otherwise nothing. *)
Definition author_part (item : RunTreeItem.t) : string :=
  match RunTreeItem.createdBy item, RunTreeItem.ingressAttributes item with
  | Some createdBy, _ =>
      img (createdBy !! "avatar-url") ++ " **" ++
      Js.to_string (createdBy !! "username") ++ "**"
  | None, Some ingress =>
      img (ingress !! "sender-avatar-url") ++ " **" ++
      Js.to_string (ingress !! "sender-username") ++ "**"
  | None, None => EmptyString
  end.

Definition summary_part `{Imports} (item : RunTreeItem.t) : string :=
  " " ++ Js.to_string (TRIGGER_REASON (trigger_reason (RunTreeItem.attributes item))) ++
  " from " ++ Js.to_string (RUN_SOURCE (source (RunTreeItem.attributes item))) ++
  " " ++ RelativeTimeFormat (created_at (RunTreeItem.attributes item)).

Definition table_part `{Imports} (item : RunTreeItem.t) : string :=
  Js.nl ++ Js.nl ++
  "-----" ++ Js.nl ++
  "_____" ++ Js.nl ++
  "| | |" ++ Js.nl ++
  "-:|--" ++ Js.nl ++
  "| **Run ID**   | `" ++ RunTreeItem.id item ++ "` |" ++ Js.nl ++
  "| **Status** | $(" ++
  icon_id (GetRunStatusIcon (status (RunTreeItem.attributes item))) ++ ") " ++
  GetRunStatusMessage (status (RunTreeItem.attributes item)) ++ " |" ++ Js.nl.

(** The configuration row with branch and repository, and the commit row. *)
Definition vcs_rows `{Imports} (ingress : Attributes) (cfgSource commitSha commitMessage : string)
    : string :=
  "| **Configuration** | From " ++ Js.to_string (CONFIGURATION_SOURCE cfgSource) ++
  " by " ++ img (ingress !! "sender-avatar-url") ++ " " ++
  Js.to_string (ingress !! "sender-username") ++
  " **Branch** " ++ Js.to_string (ingress !! "branch") ++
  " **Repo** [" ++ Js.to_string (ingress !! "identifier") ++
  "](" ++ Js.to_string (ingress !! "clone-url") ++ ") |" ++ Js.nl ++
  "| **Commit** | [" ++ Js.slice0 8 commitSha ++ "](" ++
  Js.to_string (ingress !! "commit-url") ++ "): " ++
  Js.first_line commitMessage ++ " |" ++ Js.nl.

Definition plain_row (item : RunTreeItem.t) : string :=
  "| **Configuration** | From " ++ source (RunTreeItem.attributes item) ++ " |" ++ Js.nl.

Definition trailer_part `{Imports} (item : RunTreeItem.t) : string :=
  "| **Trigger** | " ++
  Js.to_string (TRIGGER_REASON (trigger_reason (RunTreeItem.attributes item))) ++
  " |" ++ Js.nl ++
  "| **Execution Mode** | " ++
  execution_mode (ws_attributes (RunTreeItem.workspace item)) ++ " |" ++ Js.nl.

Definition tooltip_with `{Imports} (item : RunTreeItem.t) (configuration : string)
    : MarkdownString :=
  {| value :=
       author_part item ++ summary_part item ++ table_part item ++ configuration ++
       trailer_part item;
     supportHtml := true;
     supportThemeIcons := true |}.

(** Both the ingress attributes and a configuration version with a
    (non-empty) source are resolved. *)
Definition vcs_resolved (item : RunTreeItem.t) (ingress : Attributes) (cfgSource : string)
    : Prop :=
  RunTreeItem.ingressAttributes item = Some ingress /\
  exists cfg,
    RunTreeItem.configurationVersion item = Some cfg /\
    cfg !! "source" = Some cfgSource /\
    cfgSource <> EmptyString.

(** The window with [cs] called after the calls of [w]. *)
Definition window_after (w : Window) (cs : list Call) : Window :=
  {| next_handle := next_handle w;
     subscriptions := subscriptions w;
     calls := calls w ++ cs |}.

Definition fresh_window : Window :=
  {| next_handle := 0; subscriptions := []; calls := [] |}.


(** The resource types the loop body of [getRuns] looks up from the run. *)
Definition joined_from_run (ty : string) : Prop :=
  ty = "users" \/ ty = "configuration-versions" \/ ty = "plans" \/ ty = "applies".

(** The item as its constructor leaves it, before any lookup. *)
Definition bare_item `{Imports} (run : Run) (activeWorkspace : WorkspaceTreeItem)
    : RunTreeItem.t :=
  RunTreeItem.constructor (run_id run) (run_attributes run) activeWorkspace.

(** ** Sample data *)

Definition rel_to (i : string) : Relationship :=
  {| data := Some {| rel_id := Some i; rel_type := None |} |}.

Definition sample_user : IncludedObject :=
  {| inc_id := "user-1"; inc_type := "users";
     inc_attributes := <["username" := "ada"]> (<["avatar-url" := "https://a/ada.png"]> ∅);
     inc_relationships := ∅ |}.

Definition sample_ingress : IncludedObject :=
  {| inc_id := "ia-1"; inc_type := "ingress-attributes";
     inc_attributes :=
       <["commit-sha" := "0123456789abcdef"]>
         (<["commit-message" := "fix: x" ++ Js.nl ++ "body"]>
            (<["sender-username" := "bob"]> ∅));
     inc_relationships := ∅ |}.

Definition sample_cfg : IncludedObject :=
  {| inc_id := "cv-1"; inc_type := "configuration-versions";
     inc_attributes := <["source" := "github"]> ∅;
     inc_relationships := <["ingress-attributes" := rel_to "ia-1"]> ∅ |}.

Definition sample_plan (st : string) : IncludedObject :=
  {| inc_id := "plan-1"; inc_type := "plans";
     inc_attributes := <["status" := st]> ∅;
     inc_relationships := ∅ |}.

Definition sample_apply (st : string) : IncludedObject :=
  {| inc_id := "apply-1"; inc_type := "applies";
     inc_attributes := <["status" := st]> ∅;
     inc_relationships := ∅ |}.

(** A plan with the right id listed after an apply that shares the id. *)
Definition sample_included : list IncludedObject :=
  [sample_user;
   {| inc_id := "plan-1"; inc_type := "applies"; inc_attributes := ∅;
      inc_relationships := ∅ |};
   sample_cfg; sample_ingress; sample_plan "finished"; sample_apply "canceled";
   sample_plan "errored"].

Definition sample_run_attributes : RunAttributes :=
  {| message := "Queued manually"; status := "applied"; trigger_reason := "manual";
     created_at := "2023-10-01T10:00:00Z"; source := "tfe-ui" |}.

Definition sample_run : Run :=
  {| run_id := "run-1";
     run_attributes := sample_run_attributes;
     run_relationships :=
       <["plan" := rel_to "plan-1"]>
         (<["apply" := rel_to "apply-1"]>
            (<["configuration-version" := rel_to "cv-1"]>
               (<["created-by" := rel_to "user-1"]> ∅))) |}.

Definition sample_imports : Imports :=
  {| providerID := "HashiCorpTerraformCloud";
     TRIGGER_REASON := fun r => if String.eqb r "manual" then Some "Manually triggered" else None;
     RUN_SOURCE := fun s => if String.eqb s "tfe-ui" then Some "UI" else None;
     CONFIGURATION_SOURCE := fun s => if String.eqb s "github" then Some "GitHub" else None;
     GetRunStatusIcon := fun s => {| icon_id := "pass" |};
     GetRunStatusMessage := fun s => s;
     RelativeTimeFormat := fun t => "a day ago";
     apiErrorsToString := fun errs => String.concat ", " errs;
     isErrorFromAlias := fun alias r => Z.eqb (Js.resp_status r) 422 |}.

Definition sample_workspace : WorkspaceTreeItem :=
  {| ws_id := "ws-1"; ws_attributes := {| name := "prod"; execution_mode := "remote" |} |}.

Definition sample_provider (w : option WorkspaceTreeItem) : RunTreeDataProvider.t :=
  {| RunTreeDataProvider.ctx := {| context_handle := 0 |};
     RunTreeDataProvider.reporter := {| reporter_handle := 1 |};
     RunTreeDataProvider.outputChannel := {| channel_handle := 2 |};
     RunTreeDataProvider.didChangeTreeData := {| emitter_handle := 3 |};
     RunTreeDataProvider.activeWorkspace := w |}.

Definition sample_env (org : string) (s : option AuthenticationSession)
    (outcome : Js.Result RunsResponse) : Env :=
  {| workspaceState := <["terraform.cloud.organization" := org]> ∅;
     session := s;
     listRuns_outcome := fun _ => outcome |}.

Definition sample_session : option AuthenticationSession :=
  Some {| accessToken := "token" |}.

Definition sample_response (runs : list Run) : RunsResponse :=
  {| runs_data := runs; runs_included := Some sample_included; total_count := 1 |}.

Definition axios_error (code : Z) : Js.Thrown :=
  Js.ErrorObject Js.AxiosErrorClass "Request failed"
    (Some {| Js.resp_status := code; Js.resp_errors := ["bad"] |}).

(** A run with an apply but no plan relationship. *)
Definition sample_run_apply_only : Run :=
  {| run_id := "run-2";
     run_attributes := sample_run_attributes;
     run_relationships := <["apply" := rel_to "apply-1"]> ∅ |}.

Definition sample_item : RunTreeItem.t :=
  @RunTreeDataProvider.makeRunItem sample_imports (Some sample_included) sample_run
    sample_workspace.

(** ** Theorems *)

Section ArrayFind.
Context {A : Type} (callback : A -> bool) (P : A -> Prop).
Hypothesis callback_spec : forall x, callback x = true <-> P x.

Lemma array_find_some (arr : list A) (x : A) :
  Js.array_find callback arr = Some x ->
  exists before after,
    arr = (before ++ x :: after)%list /\ P x /\ Forall (fun y => ~ P y) before.
Proof.
  induction arr as [|y rest IH]; simpl; [discriminate|].
  destruct (callback y) eqn:Hy.
  - intros [= ->]. exists [], rest. repeat split; [|constructor].
    by apply callback_spec.
  - intros Hfind. destruct (IH Hfind) as (before & after & -> & HP & Hall).
    exists (y :: before), after. repeat split; [done|].
    constructor; [|done]. intros HPy. apply callback_spec in HPy. congruence.
Qed.

Lemma array_find_none (arr : list A) :
  Js.array_find callback arr = None -> Forall (fun y => ~ P y) arr.
Proof.
  induction arr as [|y rest IH]; simpl; [constructor|].
  destruct (callback y) eqn:Hy; [discriminate|].
  intros Hfind. constructor; [|by apply IH].
  intros HPy. apply callback_spec in HPy. congruence.
Qed.
End ArrayFind.

Lemma ref_id_references (rel : option Relationship) (i : string) :
  ref_id rel = Some i <-> references rel i.
Proof.
  unfold ref_id, references. split.
  - destruct rel as [r|]; [|discriminate].
    destruct (data r) as [d|] eqn:Hd; [|discriminate].
    intros Hid. by exists r, d.
  - intros (r & d & -> & Hd & Hid). by rewrite Hd.
Qed.

Lemma ref_id_absent (rel : option Relationship) :
  reference_absent rel -> ref_id rel = None.
Proof.
  unfold ref_id. intros [->|[(r & -> & Hd)|(r & d & -> & Hd & Hid)]]; [done| |].
  - by rewrite Hd.
  - by rewrite Hd.
Qed.

Lemma callback_matches (ty : string) (rel : option Relationship) (o : IncludedObject) :
  String.eqb (inc_type o) ty && Js.strict_eq (inc_id o) (ref_id rel) = true
  <-> matches ty rel o.
Proof.
  unfold matches. rewrite andb_true_iff, String.eqb_eq, <- ref_id_references.
  unfold Js.strict_eq. destruct (ref_id rel) as [i|].
  - rewrite String.eqb_eq. split; intros [? ?]; split; congruence.
  - split; intros [? ?]; congruence.
Qed.

(** The scan every helper performs meets [lookup_spec]. *)
Lemma scan_lookup_spec (ty : string) (rel : option Relationship)
    (included : list IncludedObject) :
  lookup_spec ty rel included
    (Js.array_find
       (fun o => String.eqb (inc_type o) ty && Js.strict_eq (inc_id o) (ref_id rel))
       included).
Proof.
  split.
  - destruct (Js.array_find _ included) as [o|] eqn:Hfind; simpl.
    + eapply array_find_some in Hfind; [exact Hfind|].
      intros x. apply callback_matches.
    + eapply array_find_none in Hfind; [exact Hfind|].
      intros x. apply callback_matches.
  - intros Habs. rewrite (ref_id_absent _ Habs).
    induction included as [|o rest IH]; simpl; [done|].
    by rewrite andb_false_r.
Qed.

(** *** The lookup helpers *)

Ltac by_scan :=
  eexists; split; [apply scan_lookup_spec|];
  cbv zeta; match goal with |- context [Js.array_find ?f ?l] =>
    destruct (Js.array_find f l); reflexivity end.

(** C1. Each of the five lookup helpers scans [included] once, front to
    back, and its result comes from the first element whose [type] is the
    helper's resource type and whose [id] is the one the relationship
    links to (the element itself for configuration versions, its attributes
    for plans, applies, users and ingress attributes); the result is
    [undefined] when no element matches, and in particular when the
    relationship, its [data] or the [id] is absent. *)
Theorem lookup_helpers_first_match
    (included : list IncludedObject) (run : Run) (cfgVersion : ConfigurationVersion) :
  lookup_spec "configuration-versions"
    (run_relationships run !! "configuration-version") included
    (findConfigurationVersionAttributes included run)
  /\ (exists r, lookup_spec "plans" (run_relationships run !! "plan") included r /\
                findPlanAttributes included run = inc_attributes <$> r)
  /\ (exists r, lookup_spec "applies" (run_relationships run !! "apply") included r /\
                findApplyAttributes included run = inc_attributes <$> r)
  /\ (exists r, lookup_spec "users" (run_relationships run !! "created-by") included r /\
                findCreatedByAttributes included run = inc_attributes <$> r)
  /\ (exists r, lookup_spec "ingress-attributes"
                  (inc_relationships cfgVersion !! "ingress-attributes") included r /\
                findIngressAttributes included cfgVersion = inc_attributes <$> r).
Proof.
  split; [|split; [|split; [|split]]].
  - unfold findConfigurationVersionAttributes. cbv zeta.
    pose proof (scan_lookup_spec "configuration-versions"
                  (run_relationships run !! "configuration-version") included) as Hscan.
    by destruct (Js.array_find _ included).
  - unfold findPlanAttributes. by_scan.
  - unfold findApplyAttributes. by_scan.
  - unfold findCreatedByAttributes. by_scan.
  - unfold findIngressAttributes. by_scan.
Qed.

(** C2, as stated, fails: the source declares five helpers, not four, and
    [findConfigurationVersionAttributes] hands back the matched object
    itself rather than its attributes. *)
Lemma lookup_helpers_not_four :
  List.length lookup_helpers = 5 /\
  run_helper FindConfigurationVersionAttributes sample_included sample_run sample_cfg
    = WholeObject sample_cfg /\
  ~ four_attribute_helpers.
Proof.
  split; [reflexivity|]. split; [vm_compute; reflexivity|].
  intros [Hlen _]. discriminate Hlen.
Qed.

Lemma run_helper_spec (h : LookupHelper) (included : list IncludedObject) (run : Run)
    (cfgVersion : ConfigurationVersion) :
  exists r,
    lookup_spec (helper_type h) (helper_relationship h run cfgVersion) included r /\
    run_helper h included run cfgVersion = helper_result h r.
Proof.
  destruct h; simpl;
    unfold findConfigurationVersionAttributes, findPlanAttributes, findApplyAttributes,
      findCreatedByAttributes, findIngressAttributes;
    eexists; (split; [apply scan_lookup_spec|]); cbv zeta;
    match goal with |- context [Js.array_find ?f ?l] =>
      destruct (Js.array_find f l); reflexivity end.
Qed.

(** C2, amended. The lookup helpers are five pure functions, pairwise
    different. Each scans [included] for the first object with the helper's
    resource type and the id its relationship links to. Four follow a
    relationship of the run and [findIngressAttributes] one of the
    configuration version; four return the matched object's attributes and
    [findConfigurationVersionAttributes] the matched object itself. *)
Theorem lookup_helpers_five :
  NoDup lookup_helpers /\
  (forall h, In h lookup_helpers) /\
  List.length lookup_helpers = 5 /\
  (forall h included run cfgVersion,
     exists r,
       lookup_spec (helper_type h) (helper_relationship h run cfgVersion) included r /\
       run_helper h included run cfgVersion = helper_result h r) /\
  (forall h1 h2,
     h1 <> h2 ->
     run_helper h1 sample_included sample_run sample_cfg <>
     run_helper h2 sample_included sample_run sample_cfg).
Proof.
  split; [|split; [|split; [|split]]].
  - unfold lookup_helpers.
    repeat (apply NoDup_cons; split;
            [rewrite ?not_elem_of_cons; repeat split;
             (discriminate || apply not_elem_of_nil)|]).
    apply NoDup_nil_2.
  - intros []; simpl; tauto.
  - reflexivity.
  - apply run_helper_spec.
  - intros h1 h2 Hne Heq.
    destruct h1, h2; try congruence; vm_compute in Heq; discriminate Heq.
Qed.

(** *** The command registrar *)

Lemma forEach_dispose_trace (cs : list Disposable) (h : Host) :
  TFLintCommands.forEach_dispose cs h =
  (tt, {| next_disposable := next_disposable h;
          trace := trace h ++ map DisposeOf cs |}).
Proof.
  revert h. induction cs as [|c rest IH]; intros h; simpl.
  - unfold ret. rewrite app_nil_r. by destruct h.
  - unfold bind, emit. rewrite IH. simpl. by rewrite <- app_assoc.
Qed.

(** C6. Constructing [TFLintCommands] makes exactly one call to the host,
    registering the command ['terraform.tflint']; invoking its handler calls
    [terraform.tflint] with the client and the reporter given to the
    constructor and nothing else; [dispose] disposes, in order, every
    disposable the registrations returned. *)
Theorem tflint_registrar (client : LanguageClient) (reporter : TelemetryReporter)
    (h : Host) :
  let (this, h') := TFLintCommands.constructor client reporter h in
  exists callback d,
    trace h' = (trace h ++ [RegisterCommand "terraform.tflint" callback d])%list /\
    TFLintCommands.commands this = [d] /\
    TFLintCommands.client this = client /\
    TFLintCommands.reporter this = reporter /\
    (forall h0,
       TFLintCommands.invoke callback h0 =
       (tt, {| next_disposable := next_disposable h0;
               trace := trace h0 ++ [TerraformTflint client reporter] |})) /\
    (forall h1,
       TFLintCommands.dispose this h1 =
       (tt, {| next_disposable := next_disposable h1;
               trace := trace h1 ++ [DisposeOf d] |})).
Proof.
  unfold TFLintCommands.constructor, bind, registerCommand, ret. simpl.
  exists (TflintCallback client reporter), {| disposable_handle := next_disposable h |}.
  split; [reflexivity|]. split; [reflexivity|]. split; [reflexivity|].
  split; [reflexivity|]. split; [reflexivity|].
  intros h1. unfold TFLintCommands.dispose. simpl TFLintCommands.commands.
  apply forEach_dispose_trace.
Qed.

(** *** [refresh] *)

(** C7. [refresh(workspaceItem)] stores its argument, [undefined] included,
    as the active workspace, fires the tree-data-change emitter once, and
    leaves every other field of the provider and of the host as it was. *)
Theorem refresh_frame (this : RunTreeDataProvider.t)
    (workspaceItem : option WorkspaceTreeItem) (h : Host) :
  let (this', h') := RunTreeDataProvider.refresh this workspaceItem h in
  RunTreeDataProvider.activeWorkspace this' = workspaceItem /\
  RunTreeDataProvider.ctx this' = RunTreeDataProvider.ctx this /\
  RunTreeDataProvider.reporter this' = RunTreeDataProvider.reporter this /\
  RunTreeDataProvider.outputChannel this' = RunTreeDataProvider.outputChannel this /\
  RunTreeDataProvider.didChangeTreeData this' = RunTreeDataProvider.didChangeTreeData this /\
  trace h' = (trace h ++ [Fire (RunTreeDataProvider.didChangeTreeData this)])%list /\
  next_disposable h' = next_disposable h.
Proof.
  unfold RunTreeDataProvider.refresh, bind, emit, ret. simpl. repeat split.
Qed.

(** *** The [catch] block of [getRuns] *)

Ltac run_calls :=
  unfold bind, emit, ret, after; simpl; rewrite <- ?app_assoc; reflexivity.

Lemma catchListRuns_handled `{Imports} (this : RunTreeDataProvider.t)
    (activeWorkspace workspace : WorkspaceTreeItem) (error : Js.Thrown) :
  exists calls,
    handled this activeWorkspace workspace error calls /\
    forall h,
      RunTreeDataProvider.catchListRuns this activeWorkspace workspace error h =
      ([], after h calls).
Proof.
  unfold RunTreeDataProvider.catchListRuns, RunTreeDataProvider.status_is.
  destruct error as [[| |] msg [r|]| s |]; simpl;
    try (eexists; split; [constructor; simpl; by auto|intros h; run_calls]).
  destruct (Z.eqb_spec (Js.resp_status r) 401) as [H401|H401].
  { eexists; split; [by apply handled_unauthorized|intros h; run_calls]. }
  destruct (Z.eqb_spec (Js.resp_status r) 404) as [H404|H404].
  { eexists; split; [by apply handled_not_found|intros h; run_calls]. }
  destruct (isErrorFromAlias "listRuns" r) eqn:Halias.
  { eexists; split; [by apply handled_api_error|intros h; run_calls]. }
  eexists; split; [apply handled_error; right; simpl; by auto|intros h; run_calls].
Qed.

Lemma handled_one_report `{Imports} (this : RunTreeDataProvider.t)
    (activeWorkspace workspace : WorkspaceTreeItem) (error : Js.Thrown)
    (calls : list Event) :
  handled this activeWorkspace workspace error calls ->
  List.length (List.filter is_report calls) = 1 /\ api_requests calls = [].
Proof. by destruct 1. Qed.

Lemma getRuns_throw `{Imports} (env : Env) (this : RunTreeDataProvider.t)
    (workspace activeWorkspace : WorkspaceTreeItem) (error : Js.Thrown) (h : Host) :
  signed_in env = true ->
  RunTreeDataProvider.activeWorkspace this = Some activeWorkspace ->
  listRuns_outcome env (RunTreeDataProvider.listRunsRequest workspace) = Js.Throw error ->
  exists calls,
    handled this activeWorkspace workspace error calls /\
    RunTreeDataProvider.getRuns env this workspace h =
    ([], after h ([GetSession providerID [] false;
                   ListRuns (RunTreeDataProvider.listRunsRequest workspace)] ++ calls)).
Proof.
  unfold signed_in. intros [Horg Hsession]%andb_true_iff Hactive Hthrow.
  destruct (catchListRuns_handled this activeWorkspace workspace error)
    as (calls & Hhandled & Hcatch).
  exists calls. split; [done|].
  unfold RunTreeDataProvider.getRuns.
  apply negb_true_iff in Horg. rewrite Horg.
  unfold bind, getSession, apiClient_listRuns, emit, ret. simpl.
  destruct (session env); [|discriminate].
  rewrite Hactive. simpl. rewrite Hthrow, Hcatch.
  unfold after. simpl. by rewrite <- !app_assoc.
Qed.

(** C3, as stated, fails: no split of thrown values into three shapes
    accounts for the handler. A [ZodiosError], an Axios 401, an Axios 404, a
    plain [Error] and a thrown string already get five different
    treatments. *)
Lemma catch_handler_more_than_three_shapes :
  let this := sample_provider (Some sample_workspace) in
  let calls := @handler_calls sample_imports this sample_workspace sample_workspace in
  map kind_of (calls (Js.ErrorObject Js.ZodiosErrorClass "invalid response" None))
    = [KHandleZodiosError] /\
  map kind_of (calls (axios_error 401)) = [KHandleAuthError] /\
  map kind_of (calls (axios_error 404)) = [KShowWarningMessage] /\
  map kind_of (calls (Js.ErrorObject Js.PlainErrorClass "boom" None))
    = [KShowErrorMessage; KSendTelemetryException] /\
  map kind_of (calls (Js.StringValue "boom")) = [KShowErrorMessage] /\
  ~ @three_error_shapes sample_imports this sample_workspace sample_workspace.
Proof.
  cbv zeta.
  assert (K1 : map kind_of (@handler_calls sample_imports
                 (sample_provider (Some sample_workspace)) sample_workspace
                 sample_workspace
                 (Js.ErrorObject Js.ZodiosErrorClass "invalid response" None))
               = [KHandleZodiosError]) by (vm_compute; reflexivity).
  assert (K2 : map kind_of (@handler_calls sample_imports
                 (sample_provider (Some sample_workspace)) sample_workspace
                 sample_workspace (axios_error 401))
               = [KHandleAuthError]) by (vm_compute; reflexivity).
  assert (K3 : map kind_of (@handler_calls sample_imports
                 (sample_provider (Some sample_workspace)) sample_workspace
                 sample_workspace (axios_error 404))
               = [KShowWarningMessage]) by (vm_compute; reflexivity).
  assert (K4 : map kind_of (@handler_calls sample_imports
                 (sample_provider (Some sample_workspace)) sample_workspace
                 sample_workspace (Js.ErrorObject Js.PlainErrorClass "boom" None))
               = [KShowErrorMessage; KSendTelemetryException])
    by (vm_compute; reflexivity).
  assert (K5 : map kind_of (@handler_calls sample_imports
                 (sample_provider (Some sample_workspace)) sample_workspace
                 sample_workspace (Js.StringValue "boom"))
               = [KShowErrorMessage]) by (vm_compute; reflexivity).
  repeat (split; [assumption|]).
  intros [shape Hshape].
  pose proof (Hshape (Js.ErrorObject Js.ZodiosErrorClass "invalid response" None)
                (axios_error 401)) as H12.
  pose proof (Hshape (Js.ErrorObject Js.ZodiosErrorClass "invalid response" None)
                (axios_error 404)) as H13.
  pose proof (Hshape (Js.ErrorObject Js.ZodiosErrorClass "invalid response" None)
                (Js.ErrorObject Js.PlainErrorClass "boom" None)) as H14.
  pose proof (Hshape (axios_error 401) (axios_error 404)) as H23.
  pose proof (Hshape (axios_error 401)
                (Js.ErrorObject Js.PlainErrorClass "boom" None)) as H24.
  pose proof (Hshape (axios_error 404)
                (Js.ErrorObject Js.PlainErrorClass "boom" None)) as H34.
  rewrite K1, K2 in H12. rewrite K1, K3 in H13. rewrite K1, K4 in H14.
  rewrite K2, K3 in H23. rewrite K2, K4 in H24. rewrite K3, K4 in H34.
  destruct (shape (Js.ErrorObject Js.ZodiosErrorClass "invalid response" None)),
    (shape (axios_error 401)), (shape (axios_error 404)),
    (shape (Js.ErrorObject Js.PlainErrorClass "boom" None));
    first [ discriminate (H12 eq_refl) | discriminate (H13 eq_refl)
          | discriminate (H14 eq_refl) | discriminate (H23 eq_refl)
          | discriminate (H24 eq_refl) | discriminate (H34 eq_refl) ].
Qed.

(** C3, amended. When [listRuns] throws, the [catch] block tells seven cases
    apart: a [ZodiosError]; an Axios error with status 401; one with status
    404; one that is a declared error of the [listRuns] endpoint; any other
    [Error] (Axios errors without a special case included); a thrown string;
    any other value. Each case makes exactly one reporting call
    ([handleZodiosError], [handleAuthError], [showWarningMessage] or
    [showErrorMessage]), and in each [getRuns] yields the empty list. *)
Theorem getRuns_failure_cases `{Imports} (env : Env) (this : RunTreeDataProvider.t)
    (workspace activeWorkspace : WorkspaceTreeItem) (error : Js.Thrown) (h : Host) :
  signed_in env = true ->
  RunTreeDataProvider.activeWorkspace this = Some activeWorkspace ->
  listRuns_outcome env (RunTreeDataProvider.listRunsRequest workspace) = Js.Throw error ->
  exists calls,
    handled this activeWorkspace workspace error calls /\
    List.length (List.filter is_report calls) = 1 /\
    RunTreeDataProvider.getRuns env this workspace h =
    ([], after h ([GetSession providerID [] false;
                   ListRuns (RunTreeDataProvider.listRunsRequest workspace)] ++ calls)).
Proof.
  intros Hin Hactive Hthrow.
  destruct (getRuns_throw env this workspace activeWorkspace error h Hin Hactive Hthrow)
    as (calls & Hhandled & Hrun).
  exists calls. split; [done|]. split; [|done].
  by apply (handled_one_report _ _ _ _ _ Hhandled).
Qed.

Lemma getRuns_failure_cases_witness :
  let this := sample_provider (Some sample_workspace) in
  let env := sample_env "acme" sample_session (Js.Throw (axios_error 404)) in
  exists calls,
    @handled sample_imports this sample_workspace sample_workspace (axios_error 404) calls /\
    List.length (List.filter is_report calls) = 1 /\
    @RunTreeDataProvider.getRuns sample_imports env this sample_workspace fresh_host =
    ([], after fresh_host
           ([GetSession (@providerID sample_imports) [] false;
             ListRuns (RunTreeDataProvider.listRunsRequest sample_workspace)] ++ calls)).
Proof.
  apply (@getRuns_failure_cases sample_imports
           (sample_env "acme" sample_session (Js.Throw (axios_error 404)))
           (sample_provider (Some sample_workspace))
           sample_workspace sample_workspace (axios_error 404) fresh_host);
    reflexivity.
Defined.

(** *** Requests and guards of [getRuns] *)

Lemma api_requests_app (l1 l2 : list Event) :
  api_requests (l1 ++ l2) = (api_requests l1 ++ api_requests l2)%list.
Proof.
  induction l1 as [|e l1 IH]; simpl; [done|].
  destruct e; simpl; by rewrite ?IH.
Qed.

Lemma runLoop_map `{Imports} (included : option (list IncludedObject))
    (activeWorkspace : WorkspaceTreeItem) (rest : list Run) (items : list RunTreeItem.t) :
  RunTreeDataProvider.runLoop included activeWorkspace rest items =
  (items ++ map (fun run => RunTreeDataProvider.makeRunItem included run activeWorkspace)
              rest)%list.
Proof.
  revert items. induction rest as [|run rest IH]; intros items; simpl.
  - by rewrite app_nil_r.
  - rewrite IH. by rewrite <- app_assoc.
Qed.

Lemma getRuns_ok `{Imports} (env : Env) (this : RunTreeDataProvider.t)
    (workspace activeWorkspace : WorkspaceTreeItem) (runs : RunsResponse) (h : Host) :
  signed_in env = true ->
  RunTreeDataProvider.activeWorkspace this = Some activeWorkspace ->
  listRuns_outcome env (RunTreeDataProvider.listRunsRequest workspace) = Js.Ok runs ->
  RunTreeDataProvider.getRuns env this workspace h =
  (match runs_data runs with
   | [] => [no_runs_item activeWorkspace]
   | _ =>
       map (fun run =>
              RunItem (RunTreeDataProvider.makeRunItem (runs_included runs) run
                         activeWorkspace))
         (runs_data runs)
   end,
   after h [GetSession providerID [] false;
            ListRuns (RunTreeDataProvider.listRunsRequest workspace);
            SendTelemetryEvent (RunTreeDataProvider.reporter this) "tfc-fetch-runs"
              [("totalCount", total_count runs)]]).
Proof.
  unfold signed_in. intros [Horg Hsession]%andb_true_iff Hactive Hok.
  unfold RunTreeDataProvider.getRuns.
  apply negb_true_iff in Horg. rewrite Horg.
  unfold bind, getSession, apiClient_listRuns, emit, ret. simpl.
  destruct (session env); [|discriminate].
  rewrite Hactive. simpl. rewrite Hok.
  unfold after. simpl. rewrite <- !app_assoc. simpl.
  destruct (runs_data runs) as [|run rest] eqn:Hdata; simpl; [reflexivity|].
  rewrite runLoop_map. simpl. by rewrite map_map.
Qed.

Lemma getRuns_requests `{Imports} (env : Env) (this : RunTreeDataProvider.t)
    (workspace : WorkspaceTreeItem) (h : Host) :
  exists calls,
    snd (RunTreeDataProvider.getRuns env this workspace h) = after h calls /\
    api_requests calls =
    if signed_in env then
      match RunTreeDataProvider.activeWorkspace this with
      | Some _ => [RunTreeDataProvider.listRunsRequest workspace]
      | None => []
      end
    else [].
Proof.
  destruct (signed_in env) eqn:Hin.
  - destruct (RunTreeDataProvider.activeWorkspace this) as [activeWorkspace|] eqn:Hactive.
    + destruct (listRuns_outcome env (RunTreeDataProvider.listRunsRequest workspace))
        as [runs|error] eqn:Hout.
      * rewrite (getRuns_ok env this workspace activeWorkspace runs h Hin Hactive Hout).
        eexists. split; [reflexivity|reflexivity].
      * destruct (getRuns_throw env this workspace activeWorkspace error h Hin Hactive Hout)
          as (calls & Hhandled & ->).
        eexists. split; [reflexivity|].
        rewrite api_requests_app.
        destruct (handled_one_report _ _ _ _ _ Hhandled) as [_ ->]. reflexivity.
    + unfold signed_in in Hin. apply andb_true_iff in Hin as [Horg Hsession].
      apply negb_true_iff in Horg.
      unfold RunTreeDataProvider.getRuns. rewrite Horg.
      unfold bind, getSession, emit, ret. simpl.
      destruct (session env); [|discriminate]. rewrite Hactive.
      exists [GetSession providerID [] false]. by split.
  - unfold signed_in in Hin. apply andb_false_iff in Hin as [Horg|Hsession].
    + apply negb_false_iff in Horg.
      unfold RunTreeDataProvider.getRuns. rewrite Horg.
      exists []. split; [|done]. unfold ret, after. simpl. rewrite app_nil_r.
      by destruct h.
    + unfold RunTreeDataProvider.getRuns.
      destruct (String.eqb _ EmptyString).
      * exists []. split; [|done]. unfold ret, after. simpl. rewrite app_nil_r.
        by destruct h.
      * unfold bind, getSession, emit, ret. simpl.
        destruct (session env); [discriminate|].
        exists [GetSession providerID [] false]. by split.
Qed.

(** C5. A call of [getChildren()] by the host, which is what a refresh
    triggers, makes at most one [listRuns] request; it makes exactly one
    when an organization is stored, a session exists and a workspace is
    active, and that request is for the active workspace's id, with page
    size 100 and the includes [plan], [apply],
    [configuration_version.ingress_attributes] and [created_by]. Asking for
    the children of an element makes no call at all. *)
Theorem getChildren_one_request `{Imports} (env : Env) (this : RunTreeDataProvider.t)
    (h : Host) :
  (exists calls,
     snd (RunTreeDataProvider.getChildren env this None h) = after h calls /\
     api_requests calls =
     match RunTreeDataProvider.activeWorkspace this with
     | Some workspace =>
         if signed_in env then
           [{| workspace_id := ws_id workspace;
               page_size := 100;
               include := ["plan"; "apply"; "configuration_version.ingress_attributes";
                           "created_by"] |}]
         else []
     | None => []
     end) /\
  (forall element,
     RunTreeDataProvider.getChildren env this (Some element) h = ([element], h)).
Proof.
  split; [|reflexivity].
  unfold RunTreeDataProvider.getChildren.
  destruct (RunTreeDataProvider.activeWorkspace this) as [workspace|] eqn:Hactive.
  - destruct (getRuns_requests env this workspace h) as (calls & Hsnd & Hreq).
    exists calls. split; [done|]. rewrite Hreq, Hactive.
    by destruct (signed_in env).
  - exists []. split; [|done]. unfold ret, after. simpl. rewrite app_nil_r.
    by destruct h.
Qed.

(** C10. The run listing is empty, and no [listRuns] request is made, when a
    precondition is unmet: [getChildren()] with no active workspace makes no
    call and yields the empty list; [getRuns] yields the empty list without
    any call when the stored organization name is empty, and after the
    session query alone when there is no session. When the request succeeds
    with zero runs, the result is the single placeholder
    ['No runs found for <name of the active workspace>']. All of this holds
    at the tree interface: with an active workspace, [getChildren()] is
    [getRuns] on that workspace, so it yields the empty list under the same
    unmet preconditions and the placeholder for a page without runs. *)
Theorem run_listing_guards `{Imports} (env : Env) (this : RunTreeDataProvider.t)
    (workspace : WorkspaceTreeItem) (h : Host) :
  (RunTreeDataProvider.activeWorkspace this = None ->
   RunTreeDataProvider.getChildren env this None h = ([], h)) /\
  (workspaceState_get env "terraform.cloud.organization" EmptyString = EmptyString ->
   RunTreeDataProvider.getRuns env this workspace h = ([], h)) /\
  (session env = None ->
   exists calls,
     RunTreeDataProvider.getRuns env this workspace h = ([], after h calls) /\
     api_requests calls = []) /\
  (forall activeWorkspace runs,
     signed_in env = true ->
     RunTreeDataProvider.activeWorkspace this = Some activeWorkspace ->
     listRuns_outcome env (RunTreeDataProvider.listRunsRequest workspace) = Js.Ok runs ->
     runs_data runs = [] ->
     fst (RunTreeDataProvider.getRuns env this workspace h) =
     [PlainTreeItem
        {| label := Some ("No runs found for " ++ name (ws_attributes activeWorkspace));
           collapsibleState := None;
           iconPath := None;
           description := None;
           tooltip :=
             Some (TooltipText
                     ("No runs found for " ++ name (ws_attributes activeWorkspace)));
           contextValue := Some "empty" |}]) /\
  (forall activeWorkspace,
     RunTreeDataProvider.activeWorkspace this = Some activeWorkspace ->
     RunTreeDataProvider.getChildren env this None h =
     RunTreeDataProvider.getRuns env this activeWorkspace h) /\
  (forall activeWorkspace,
     RunTreeDataProvider.activeWorkspace this = Some activeWorkspace ->
     workspaceState_get env "terraform.cloud.organization" EmptyString = EmptyString ->
     RunTreeDataProvider.getChildren env this None h = ([], h)) /\
  (forall activeWorkspace,
     RunTreeDataProvider.activeWorkspace this = Some activeWorkspace ->
     session env = None ->
     exists calls,
       RunTreeDataProvider.getChildren env this None h = ([], after h calls) /\
       api_requests calls = []) /\
  (forall activeWorkspace runs,
     signed_in env = true ->
     RunTreeDataProvider.activeWorkspace this = Some activeWorkspace ->
     listRuns_outcome env (RunTreeDataProvider.listRunsRequest activeWorkspace)
       = Js.Ok runs ->
     runs_data runs = [] ->
     RunTreeDataProvider.getChildren env this None h =
     ([PlainTreeItem
         {| label := Some ("No runs found for " ++ name (ws_attributes activeWorkspace));
            collapsibleState := None;
            iconPath := None;
            description := None;
            tooltip :=
              Some (TooltipText
                      ("No runs found for " ++ name (ws_attributes activeWorkspace)));
            contextValue := Some "empty" |}],
      after h
        [GetSession providerID [] false;
         ListRuns (RunTreeDataProvider.listRunsRequest activeWorkspace);
         SendTelemetryEvent (RunTreeDataProvider.reporter this) "tfc-fetch-runs"
           [("totalCount", total_count runs)]])).
Proof.
  assert (Hnosession : forall w0,
            session env = None ->
            exists calls,
              RunTreeDataProvider.getRuns env this w0 h = ([], after h calls) /\
              api_requests calls = []).
  { intros w0 Hsession. unfold RunTreeDataProvider.getRuns.
    destruct (String.eqb _ EmptyString).
    - exists []. split; [|done]. unfold ret, after. simpl. rewrite app_nil_r.
      by destruct h.
    - unfold bind, getSession, emit, ret. simpl. rewrite Hsession.
      exists [GetSession providerID [] false]. by split. }
  assert (Hnoorg : forall w0,
            workspaceState_get env "terraform.cloud.organization" EmptyString
              = EmptyString ->
            RunTreeDataProvider.getRuns env this w0 h = ([], h)).
  { intros w0 Horg. unfold RunTreeDataProvider.getRuns. by rewrite Horg. }
  assert (Hchildren : forall activeWorkspace,
            RunTreeDataProvider.activeWorkspace this = Some activeWorkspace ->
            RunTreeDataProvider.getChildren env this None h =
            RunTreeDataProvider.getRuns env this activeWorkspace h).
  { intros activeWorkspace Hactive. unfold RunTreeDataProvider.getChildren.
    by rewrite Hactive. }
  split; [|split; [|split; [|split; [|split; [|split; [|split]]]]]].
  - intros Hactive. unfold RunTreeDataProvider.getChildren. by rewrite Hactive.
  - apply Hnoorg.
  - apply Hnosession.
  - intros activeWorkspace runs Hin Hactive Hok Hdata.
    rewrite (getRuns_ok env this workspace activeWorkspace runs h Hin Hactive Hok).
    by rewrite Hdata.
  - exact Hchildren.
  - intros activeWorkspace Hactive Horg. rewrite (Hchildren _ Hactive).
    by apply Hnoorg.
  - intros activeWorkspace Hactive Hsession. rewrite (Hchildren _ Hactive).
    by apply Hnosession.
  - intros activeWorkspace runs Hin Hactive Hok Hdata. rewrite (Hchildren _ Hactive).
    rewrite (getRuns_ok env this activeWorkspace activeWorkspace runs h Hin Hactive Hok).
    by rewrite Hdata.
Qed.

Lemma run_listing_guards_witness :
  @RunTreeDataProvider.getChildren sample_imports
    (sample_env "acme" sample_session (Js.Ok (sample_response [])))
    (sample_provider None) None fresh_host = ([], fresh_host) /\
  @RunTreeDataProvider.getChildren sample_imports
    (sample_env EmptyString sample_session (Js.Ok (sample_response [])))
    (sample_provider (Some sample_workspace)) None fresh_host
    = ([], fresh_host) /\
  (exists calls,
     @RunTreeDataProvider.getChildren sample_imports
       (sample_env "acme" None (Js.Ok (sample_response [])))
       (sample_provider (Some sample_workspace)) None fresh_host
     = ([], after fresh_host calls) /\
     api_requests calls = []) /\
  @RunTreeDataProvider.getChildren sample_imports
    (sample_env "acme" sample_session (Js.Ok (sample_response [])))
    (sample_provider (Some sample_workspace)) None fresh_host
    = ([PlainTreeItem
          {| label := Some "No runs found for prod";
             collapsibleState := None;
             iconPath := None;
             description := None;
             tooltip := Some (TooltipText "No runs found for prod");
             contextValue := Some "empty" |}],
       after fresh_host
         [GetSession (@providerID sample_imports) [] false;
          ListRuns (RunTreeDataProvider.listRunsRequest sample_workspace);
          SendTelemetryEvent {| reporter_handle := 1 |} "tfc-fetch-runs"
            [("totalCount", 1%Z)]]) /\
  @RunTreeDataProvider.getRuns sample_imports
    (sample_env EmptyString sample_session (Js.Ok (sample_response [])))
    (sample_provider (Some sample_workspace)) sample_workspace fresh_host
    = ([], fresh_host) /\
  fst (@RunTreeDataProvider.getRuns sample_imports
         (sample_env "acme" sample_session (Js.Ok (sample_response [])))
         (sample_provider (Some sample_workspace)) sample_workspace fresh_host)
    = [PlainTreeItem
         {| label := Some "No runs found for prod";
            collapsibleState := None;
            iconPath := None;
            description := None;
            tooltip := Some (TooltipText "No runs found for prod");
            contextValue := Some "empty" |}].
Proof.
  split; [|split; [|split; [|split; [|split]]]].
  - apply (proj1 (@run_listing_guards sample_imports
                    (sample_env "acme" sample_session (Js.Ok (sample_response [])))
                    (sample_provider None) sample_workspace fresh_host)).
    reflexivity.
  - apply (proj1 (proj2 (proj2 (proj2 (proj2 (proj2
             (@run_listing_guards sample_imports
                (sample_env EmptyString sample_session (Js.Ok (sample_response [])))
                (sample_provider (Some sample_workspace)) sample_workspace
                fresh_host))))))
             sample_workspace); reflexivity.
  - apply (proj1 (proj2 (proj2 (proj2 (proj2 (proj2 (proj2
             (@run_listing_guards sample_imports
                (sample_env "acme" None (Js.Ok (sample_response [])))
                (sample_provider (Some sample_workspace)) sample_workspace
                fresh_host)))))))
             sample_workspace); reflexivity.
  - apply (proj2 (proj2 (proj2 (proj2 (proj2 (proj2 (proj2
             (@run_listing_guards sample_imports
                (sample_env "acme" sample_session (Js.Ok (sample_response [])))
                (sample_provider (Some sample_workspace)) sample_workspace
                fresh_host)))))))
             sample_workspace (sample_response [])); reflexivity.
  - apply (proj1 (proj2 (@run_listing_guards sample_imports
             (sample_env EmptyString sample_session (Js.Ok (sample_response [])))
             (sample_provider (Some sample_workspace)) sample_workspace fresh_host))).
    reflexivity.
  - apply (proj1 (proj2 (proj2 (proj2
             (@run_listing_guards sample_imports
                (sample_env "acme" sample_session (Js.Ok (sample_response [])))
                (sample_provider (Some sample_workspace)) sample_workspace
                fresh_host))))
             sample_workspace (sample_response [])); reflexivity.
Defined.

(** *** Plan and apply gating of a run item *)

Lemma includes_ended (st : option string) :
  Js.includes qualifying_statuses st = true <-> ended st.
Proof.
  unfold ended, Js.includes, qualifying_statuses.
  destruct st as [s|]; cbn [existsb Js.strict_eq].
  - rewrite !orb_true_iff, !String.eqb_eq. split.
    + intros [<-|[<-|[<-|Hfalse]]]; auto. discriminate Hfalse.
    + intros [[= <-]|[[= <-]|[= <-]]]; auto.
  - split; [discriminate|]. intros [|[|]]; discriminate.
Qed.

Lemma passing_plan_qualifies (included : option (list IncludedObject)) (run : Run)
    (attrs : Attributes) :
  passing_plan included run = Some attrs <-> plan_qualifies included run attrs.
Proof.
  unfold passing_plan, plan_qualifies, gate. split.
  - destruct included as [inc|]; [|discriminate].
    destruct (run_relationships run !! "plan") as [rel|] eqn:Hrel; [|discriminate].
    destruct (findPlanAttributes inc run) as [found|] eqn:Hfind; [|discriminate].
    destruct (Js.includes _ _) eqn:Hinc; [|discriminate].
    intros [= <-]. exists inc. repeat split; eauto.
    by apply includes_ended.
  - intros (inc & -> & [rel Hrel] & Hfind & Hended).
    rewrite Hrel, Hfind. apply includes_ended in Hended. by rewrite Hended.
Qed.

Lemma passing_apply_qualifies (included : option (list IncludedObject)) (run : Run)
    (attrs : Attributes) :
  passing_apply included run = Some attrs <-> apply_qualifies included run attrs.
Proof.
  unfold passing_apply, apply_qualifies, gate. split.
  - destruct included as [inc|]; [|discriminate].
    destruct (run_relationships run !! "apply") as [rel|] eqn:Hrel; [|discriminate].
    destruct (findApplyAttributes inc run) as [found|] eqn:Hfind; [|discriminate].
    destruct (Js.includes _ _) eqn:Hinc; [|discriminate].
    intros [= <-]. exists inc. repeat split; eauto.
    by apply includes_ended.
  - intros (inc & -> & [rel Hrel] & Hfind & Hended).
    rewrite Hrel, Hfind. apply includes_ended in Hended. by rewrite Hended.
Qed.

(** What the loop body leaves in the plan and apply fields and in the
    context value. *)
Lemma makeRunItem_fields `{Imports} (included : option (list IncludedObject)) (run : Run)
    (activeWorkspace : WorkspaceTreeItem) :
  let item := RunTreeDataProvider.makeRunItem included run activeWorkspace in
  RunTreeItem.planAttributes item = passing_plan included run /\
  RunTreeItem.planId item =
    (match passing_plan included run with
     | Some _ => ref_id (run_relationships run !! "plan")
     | None => None
     end) /\
  RunTreeItem.applyAttributes item = passing_apply included run /\
  RunTreeItem.applyId item =
    (match passing_apply included run with
     | Some _ => ref_id (run_relationships run !! "apply")
     | None => None
     end) /\
  contextValue (RunTreeItem.props item) =
    (match passing_plan included run, passing_apply included run with
     | None, None => None
     | Some _, None => Some "hasPlan"
     | Some _, Some _ => Some "hasPlanhasApply"
     | None, Some _ => Some "undefinedhasApply"
     end).
Proof.
  unfold RunTreeDataProvider.makeRunItem, passing_plan, passing_apply, gate.
  destruct included as [inc|]; [|by repeat split].
  destruct (findConfigurationVersionAttributes inc run);
    destruct (run_relationships run !! "plan");
    destruct (findPlanAttributes inc run) as [planAttributes|];
    try destruct (Js.includes qualifying_statuses (planAttributes !! "status"));
    destruct (run_relationships run !! "apply");
    destruct (findApplyAttributes inc run) as [applyAttributes|];
    try destruct (Js.includes qualifying_statuses (applyAttributes !! "status"));
    by repeat split.
Qed.

Lemma append_length (a b : string) :
  String.length (a ++ b) = String.length a + String.length b.
Proof. induction a as [|c a IH]; simpl; [done|]. by rewrite IH. Qed.

Lemma contextValue_markers (item : RunTreeItem.t) :
  (contextValue (RunTreeItem.props item) = None ->
   ~ has_plan_marker item /\ ~ has_apply_marker item) /\
  (contextValue (RunTreeItem.props item) = Some "hasPlan" ->
   has_plan_marker item /\ ~ has_apply_marker item) /\
  (contextValue (RunTreeItem.props item) = Some "hasPlanhasApply" ->
   has_plan_marker item /\ has_apply_marker item) /\
  (contextValue (RunTreeItem.props item) = Some "undefinedhasApply" ->
   ~ has_plan_marker item /\ has_apply_marker item).
Proof.
  unfold has_plan_marker, has_apply_marker.
  split; [|split; [|split]]; intros ->.
  - split; intros [? ?]; discriminate.
  - split; [by exists EmptyString|].
    intros [front [= Hfront]]. apply (f_equal String.length) in Hfront.
    rewrite append_length in Hfront. simpl in Hfront. lia.
  - split; [by exists "hasApply"|by exists "hasPlan"].
  - split; [intros [? ?]; discriminate|by exists "undefined"].
Qed.

Lemma getRuns_guard `{Imports} (env : Env) (this : RunTreeDataProvider.t)
    (workspace : WorkspaceTreeItem) (h : Host) :
  signed_in env = false \/ RunTreeDataProvider.activeWorkspace this = None ->
  fst (RunTreeDataProvider.getRuns env this workspace h) = [].
Proof.
  unfold signed_in, RunTreeDataProvider.getRuns.
  destruct (String.eqb _ EmptyString); [done|].
  unfold bind, getSession, emit, ret. simpl.
  destruct (session env); [|done].
  destruct (RunTreeDataProvider.activeWorkspace this); [|done].
  intros [|]; discriminate.
Qed.

(** Every run item of the listing is the loop body applied to the run at
    the same index of a successful response. *)
Lemma getRuns_run_item `{Imports} (env : Env) (this : RunTreeDataProvider.t)
    (workspace : WorkspaceTreeItem) (h : Host) (i : nat) (item : RunTreeItem.t) :
  nth_error (fst (RunTreeDataProvider.getRuns env this workspace h)) i
    = Some (RunItem item) ->
  exists runs run activeWorkspace,
    listRuns_outcome env (RunTreeDataProvider.listRunsRequest workspace) = Js.Ok runs /\
    RunTreeDataProvider.activeWorkspace this = Some activeWorkspace /\
    nth_error (runs_data runs) i = Some run /\
    item = RunTreeDataProvider.makeRunItem (runs_included runs) run activeWorkspace.
Proof.
  destruct (signed_in env) eqn:Hin;
    [|rewrite getRuns_guard by auto; by destruct i].
  destruct (RunTreeDataProvider.activeWorkspace this) as [activeWorkspace|] eqn:Hactive;
    [|rewrite getRuns_guard by auto; by destruct i].
  destruct (listRuns_outcome env (RunTreeDataProvider.listRunsRequest workspace))
    as [runs|error] eqn:Hout.
  - rewrite (getRuns_ok env this workspace activeWorkspace runs h Hin Hactive Hout).
    cbn [fst]. destruct (runs_data runs) as [|run0 rest] eqn:Hdata.
    + destruct i as [|[|i]]; discriminate.
    + rewrite nth_error_map.
      destruct (nth_error (run0 :: rest) i) as [run|] eqn:Hrun; [|discriminate].
      intros [= <-]. exists runs, run, activeWorkspace. by rewrite Hdata.
  - destruct (getRuns_throw env this workspace activeWorkspace error h Hin Hactive Hout)
      as (calls & _ & ->).
    by destruct i.
Qed.

(** C8. For the run item at any index of the listing: its [planId],
    [planAttributes] and plan marker are set exactly when the response has
    included objects, the run has a [plan] relationship and the plan found
    for it has status [errored], [canceled] or [finished]; then [planId] is
    the id the relationship links to and [planAttributes] the attributes
    found. Otherwise [planId] and [planAttributes] are [undefined] and the
    context value has no plan marker. The same holds for the apply. *)
Theorem run_item_gating `{Imports} (env : Env) (this : RunTreeDataProvider.t)
    (workspace : WorkspaceTreeItem) (h : Host) (i : nat) (item : RunTreeItem.t) :
  nth_error (fst (RunTreeDataProvider.getRuns env this workspace h)) i
    = Some (RunItem item) ->
  exists runs run,
    listRuns_outcome env (RunTreeDataProvider.listRunsRequest workspace) = Js.Ok runs /\
    nth_error (runs_data runs) i = Some run /\
    plan_gated (runs_included runs) run item /\
    apply_gated (runs_included runs) run item.
Proof.
  intros Hitem.
  destruct (getRuns_run_item env this workspace h i item Hitem)
    as (runs & run & activeWorkspace & Hout & _ & Hrun & ->).
  exists runs, run. split; [done|]. split; [done|].
  destruct (makeRunItem_fields (runs_included runs) run activeWorkspace)
    as (HplanA & HplanId & HapplyA & HapplyId & Hcv).
  destruct (contextValue_markers
              (RunTreeDataProvider.makeRunItem (runs_included runs) run activeWorkspace))
    as (Mnone & Mplan & Mboth & Mapply).
  unfold plan_gated, apply_gated.
  split; split.
  - intros attrs Hq. pose proof Hq as Hq'.
    apply passing_plan_qualifies in Hq. rewrite Hq in *.
    destruct Hq' as (inc & Hinc & _ & Hfind & _).
    split; [|split; [done|]].
    + unfold findPlanAttributes in Hfind. cbv zeta in Hfind.
      destruct (Js.array_find _ inc) as [o|] eqn:Hscan; [|discriminate].
      pose proof (scan_lookup_spec "plans" (run_relationships run !! "plan") inc)
        as [Hfirst _].
      rewrite Hscan in Hfirst. destruct Hfirst as (_ & _ & _ & [_ Href] & _).
      exists (inc_id o). split; [done|].
      rewrite HplanId. by apply ref_id_references.
    + destruct (passing_apply (runs_included runs) run); [by apply Mboth|by apply Mplan].
  - intros Hnone.
    destruct (passing_plan (runs_included runs) run) as [attrs|] eqn:Hpass.
    { exfalso. apply Hnone. exists attrs. by apply passing_plan_qualifies. }
    split; [done|]. split; [done|].
    destruct (passing_apply (runs_included runs) run); [by apply Mapply|by apply Mnone].
  - intros attrs Hq. pose proof Hq as Hq'.
    apply passing_apply_qualifies in Hq. rewrite Hq in *.
    destruct Hq' as (inc & Hinc & _ & Hfind & _).
    split; [|split; [done|]].
    + unfold findApplyAttributes in Hfind. cbv zeta in Hfind.
      destruct (Js.array_find _ inc) as [o|] eqn:Hscan; [|discriminate].
      pose proof (scan_lookup_spec "applies" (run_relationships run !! "apply") inc)
        as [Hfirst _].
      rewrite Hscan in Hfirst. destruct Hfirst as (_ & _ & _ & [_ Href] & _).
      exists (inc_id o). split; [done|].
      rewrite HapplyId. by apply ref_id_references.
    + destruct (passing_plan (runs_included runs) run); [by apply Mboth|by apply Mapply].
  - intros Hnone.
    destruct (passing_apply (runs_included runs) run) as [attrs|] eqn:Hpass.
    { exfalso. apply Hnone. exists attrs. by apply passing_apply_qualifies. }
    split; [done|]. split; [done|].
    destruct (passing_plan (runs_included runs) run); [by apply Mplan|by apply Mnone].
Qed.

Lemma run_item_gating_witness :
  let env := sample_env "acme" sample_session (Js.Ok (sample_response [sample_run])) in
  let this := sample_provider (Some sample_workspace) in
  let item :=
    @RunTreeDataProvider.makeRunItem sample_imports (Some sample_included) sample_run
      sample_workspace in
  nth_error (fst (@RunTreeDataProvider.getRuns sample_imports env this sample_workspace
                    fresh_host)) 0 = Some (RunItem item) /\
  exists runs run,
    listRuns_outcome env (RunTreeDataProvider.listRunsRequest sample_workspace)
      = Js.Ok runs /\
    nth_error (runs_data runs) 0 = Some run /\
    plan_gated (runs_included runs) run item /\
    apply_gated (runs_included runs) run item.
Proof.
  split; [vm_compute; reflexivity|].
  apply (@run_item_gating sample_imports
           (sample_env "acme" sample_session (Js.Ok (sample_response [sample_run])))
           (sample_provider (Some sample_workspace)) sample_workspace fresh_host 0
           (@RunTreeDataProvider.makeRunItem sample_imports (Some sample_included)
              sample_run sample_workspace)).
  vm_compute; reflexivity.
Defined.

(** C9. The context value of the run item at any index of the listing is
    [undefined] when neither its plan nor its apply qualifies, ['hasPlan']
    when only the plan does, ['hasPlanhasApply'] when both do, and
    ['undefinedhasApply'] when only the apply does. *)
Theorem run_item_contextValue `{Imports} (env : Env) (this : RunTreeDataProvider.t)
    (workspace : WorkspaceTreeItem) (h : Host) (i : nat) (item : RunTreeItem.t) :
  nth_error (fst (RunTreeDataProvider.getRuns env this workspace h)) i
    = Some (RunItem item) ->
  exists runs run,
    listRuns_outcome env (RunTreeDataProvider.listRunsRequest workspace) = Js.Ok runs /\
    nth_error (runs_data runs) i = Some run /\
    contextValue_spec (runs_included runs) run item.
Proof.
  intros Hitem.
  destruct (getRuns_run_item env this workspace h i item Hitem)
    as (runs & run & activeWorkspace & Hout & _ & Hrun & ->).
  exists runs, run. split; [done|]. split; [done|].
  unfold contextValue_spec. cbv zeta.
  destruct (makeRunItem_fields (runs_included runs) run activeWorkspace)
    as (_ & _ & _ & _ & ->).
  destruct (passing_plan (runs_included runs) run) as [planAttrs|] eqn:Hplan;
    destruct (passing_apply (runs_included runs) run) as [applyAttrs|] eqn:Happly.
  all: try (assert (Pyes : exists attrs, plan_qualifies (runs_included runs) run attrs)
              by (exists planAttrs; by apply passing_plan_qualifies)).
  all: try (assert (Ayes : exists attrs, apply_qualifies (runs_included runs) run attrs)
              by (exists applyAttrs; by apply passing_apply_qualifies)).
  all: try (assert (Pno : ~ exists attrs, plan_qualifies (runs_included runs) run attrs)
              by (intros [attrs Hq%passing_plan_qualifies]; congruence)).
  all: try (assert (Ano : ~ exists attrs, apply_qualifies (runs_included runs) run attrs)
              by (intros [attrs Hq%passing_apply_qualifies]; congruence)).
  all: repeat split; intros [? ?]; first [reflexivity | contradiction].
Qed.

Lemma run_item_contextValue_witness :
  let env :=
    sample_env "acme" sample_session
      (Js.Ok (sample_response [sample_run; sample_run_apply_only])) in
  let this := sample_provider (Some sample_workspace) in
  let item :=
    @RunTreeDataProvider.makeRunItem sample_imports (Some sample_included)
      sample_run_apply_only sample_workspace in
  nth_error (fst (@RunTreeDataProvider.getRuns sample_imports env this sample_workspace
                    fresh_host)) 1 = Some (RunItem item) /\
  contextValue (RunTreeItem.props item) = Some "undefinedhasApply" /\
  exists runs run,
    listRuns_outcome env (RunTreeDataProvider.listRunsRequest sample_workspace)
      = Js.Ok runs /\
    nth_error (runs_data runs) 1 = Some run /\
    contextValue_spec (runs_included runs) run item.
Proof.
  split; [vm_compute; reflexivity|]. split; [vm_compute; reflexivity|].
  apply (@run_item_contextValue sample_imports
           (sample_env "acme" sample_session
              (Js.Ok (sample_response [sample_run; sample_run_apply_only])))
           (sample_provider (Some sample_workspace)) sample_workspace fresh_host 1
           (@RunTreeDataProvider.makeRunItem sample_imports (Some sample_included)
              sample_run_apply_only sample_workspace)).
  vm_compute; reflexivity.
Defined.

(** The four context values on concrete responses. *)
Example contextValue_both :
  contextValue (RunTreeItem.props sample_item) = Some "hasPlanhasApply".
Proof. vm_compute. reflexivity. Qed.

Example contextValue_plan_only :
  contextValue
    (RunTreeItem.props
       (@RunTreeDataProvider.makeRunItem sample_imports
          (Some [sample_plan "finished"; sample_apply "running"]) sample_run
          sample_workspace)) = Some "hasPlan".
Proof. vm_compute. reflexivity. Qed.

Example contextValue_neither :
  contextValue
    (RunTreeItem.props
       (@RunTreeDataProvider.makeRunItem sample_imports
          (Some [sample_plan "running"; sample_apply "running"]) sample_run
          sample_workspace)) = None.
Proof. vm_compute. reflexivity. Qed.

(** *** The tooltip *)

Lemma string_app_assoc (a b c : string) : (a ++ b) ++ c = a ++ (b ++ c).
Proof.
  induction a as [|x a IH]; [reflexivity|].
  change (String x ((a ++ b) ++ c) = String x (a ++ (b ++ c))). by rewrite IH.
Qed.

Ltac tooltip_eq :=
  unfold tooltip_with, author_part, summary_part, table_part, trailer_part, vcs_rows,
    plain_row, appendMarkdown, set_supportHtml, set_supportThemeIcons,
    new_MarkdownString;
  cbn [value supportHtml supportThemeIcons];
  do 2 f_equal; rewrite ?string_app_assoc; reflexivity.

(** [runMarkdown], branch by branch. *)
Lemma runMarkdown_cases `{Imports} (item : RunTreeItem.t) :
  runMarkdown item =
  match RunTreeItem.ingressAttributes item, RunTreeItem.configurationVersion item with
  | Some ingress, Some cfg =>
      match cfg !! "source" with
      | Some cfgSource =>
          if String.eqb cfgSource EmptyString then
            Js.Ok (tooltip_with item (plain_row item))
          else
            match ingress !! "commit-sha", ingress !! "commit-message" with
            | Some commitSha, Some commitMessage =>
                Js.Ok (tooltip_with item
                         (vcs_rows ingress cfgSource commitSha commitMessage))
            | None, _ => Js.Throw (TypeError "slice")
            | Some _, None => Js.Throw (TypeError "split")
            end
      | None => Js.Ok (tooltip_with item (plain_row item))
      end
  | _, _ => Js.Ok (tooltip_with item (plain_row item))
  end.
Proof.
  unfold runMarkdown, tooltip_with, author_part.
  destruct (RunTreeItem.createdBy item) as [createdBy|] eqn:Hcreated;
    destruct (RunTreeItem.ingressAttributes item) as [ingress|] eqn:Hingress;
    destruct (RunTreeItem.configurationVersion item) as [cfg|] eqn:Hcfg;
    try (by tooltip_eq).
  all: unfold truthy_string;
    destruct (cfg !! "source") as [cfgSource|] eqn:Hsource;
    [destruct (String.eqb cfgSource EmptyString); cbn [negb];
     [|destruct (ingress !! "commit-sha") as [commitSha|] eqn:Hsha;
       [destruct (ingress !! "commit-message") as [commitMessage|] eqn:Hmsg|]]|];
    try reflexivity; tooltip_eq.
Qed.

(** C4. [runMarkdown] opens the tooltip with the creator's avatar and
    username when [createdBy] is resolved, otherwise with the VCS sender's
    when [ingressAttributes] is resolved, otherwise with neither. It writes
    the configuration row with branch and repository and the commit row
    when both the ingress attributes and a configuration version with a
    source are resolved, and the plain row ['From <run source>'] in every
    other case. (With both resolved but the commit sha or message missing
    from the ingress attributes, the string methods called on them throw
    and there is no tooltip.) *)
Theorem runMarkdown_branches `{Imports} (item : RunTreeItem.t) :
  ((forall createdBy,
      RunTreeItem.createdBy item = Some createdBy ->
      author_part item =
      img (createdBy !! "avatar-url") ++ " **" ++
      Js.to_string (createdBy !! "username") ++ "**") /\
   (forall ingress,
      RunTreeItem.createdBy item = None ->
      RunTreeItem.ingressAttributes item = Some ingress ->
      author_part item =
      img (ingress !! "sender-avatar-url") ++ " **" ++
      Js.to_string (ingress !! "sender-username") ++ "**") /\
   (RunTreeItem.createdBy item = None ->
    RunTreeItem.ingressAttributes item = None ->
    author_part item = EmptyString)) /\
  (forall ingress cfgSource commitSha commitMessage,
     vcs_resolved item ingress cfgSource ->
     ingress !! "commit-sha" = Some commitSha ->
     ingress !! "commit-message" = Some commitMessage ->
     runMarkdown item =
     Js.Ok (tooltip_with item (vcs_rows ingress cfgSource commitSha commitMessage))) /\
  ((~ exists ingress cfgSource, vcs_resolved item ingress cfgSource) ->
   runMarkdown item = Js.Ok (tooltip_with item (plain_row item))) /\
  (forall ingress cfgSource,
     vcs_resolved item ingress cfgSource ->
     ingress !! "commit-sha" = None \/ ingress !! "commit-message" = None ->
     exists e, runMarkdown item = Js.Throw e).
Proof.
  split; [|split; [|split]].
  - unfold author_part. split; [|split].
    + by intros createdBy ->.
    + by intros ingress -> ->.
    + by intros -> ->.
  - intros ingress cfgSource commitSha commitMessage
      (Hingress & cfg & Hcfg & Hsource & Hne) Hsha Hmsg.
    rewrite runMarkdown_cases, Hingress, Hcfg, Hsource, Hsha, Hmsg.
    apply String.eqb_neq in Hne. by rewrite Hne.
  - intros Hnone. rewrite runMarkdown_cases.
    destruct (RunTreeItem.ingressAttributes item) as [ingress|] eqn:Hingress; [|done].
    destruct (RunTreeItem.configurationVersion item) as [cfg|] eqn:Hcfg; [|done].
    destruct (cfg !! "source") as [cfgSource|] eqn:Hsource; [|done].
    destruct (String.eqb_spec cfgSource EmptyString) as [Heq|Hne]; [done|].
    exfalso. apply Hnone. exists ingress, cfgSource. split; [done|]. by exists cfg.
  - intros ingress cfgSource (Hingress & cfg & Hcfg & Hsource & Hne) Hmissing.
    rewrite runMarkdown_cases, Hingress, Hcfg, Hsource.
    apply String.eqb_neq in Hne. rewrite Hne.
    destruct Hmissing as [->| ->]; [by eexists|].
    destruct (ingress !! "commit-sha"); by eexists.
Qed.

Lemma runMarkdown_branches_witness :
  let ingress := inc_attributes sample_ingress in
  vcs_resolved sample_item ingress "github" /\
  @runMarkdown sample_imports sample_item =
  Js.Ok (@tooltip_with sample_imports sample_item
           (@vcs_rows sample_imports ingress "github" "0123456789abcdef"
              ("fix: x" ++ Js.nl ++ "body"))).
Proof.
  assert (Hresolved : vcs_resolved sample_item (inc_attributes sample_ingress) "github").
  { split; [vm_compute; reflexivity|].
    exists (inc_attributes sample_cfg).
    split; [vm_compute; reflexivity|]. split; [vm_compute; reflexivity|discriminate]. }
  split; [exact Hresolved|].
  apply (proj1 (proj2 (@runMarkdown_branches sample_imports sample_item))
           (inc_attributes sample_ingress) "github" "0123456789abcdef"
           ("fix: x" ++ Js.nl ++ "body") Hresolved);
    vm_compute; reflexivity.
Defined.

(** The rows of a concrete tooltip: the commit row shows the first eight
    characters of the sha and the first line of the message. *)
Example vcs_rows_sample :
  @vcs_rows sample_imports (inc_attributes sample_ingress) "github" "0123456789abcdef"
    ("fix: x" ++ Js.nl ++ "body")
  = "| **Configuration** | From GitHub by <img src=" ++ Js.dq ++ "undefined" ++ Js.dq ++
    " width=" ++ Js.dq ++ "20" ++ Js.dq ++
    "> bob **Branch** undefined **Repo** [undefined](undefined) |" ++ Js.nl ++
    "| **Commit** | [01234567](undefined): fix: x |" ++ Js.nl.
Proof. vm_compute. reflexivity. Qed.

(** *** Further properties of the listing *)

Lemma makeRunItem_base `{Imports} (included : option (list IncludedObject)) (run : Run)
    (activeWorkspace : WorkspaceTreeItem) :
  let item := RunTreeDataProvider.makeRunItem included run activeWorkspace in
  RunTreeItem.id item = run_id run /\
  RunTreeItem.attributes item = run_attributes run /\
  RunTreeItem.workspace item = activeWorkspace /\
  label (RunTreeItem.props item) = Some (message (run_attributes run)) /\
  description (RunTreeItem.props item) =
    Some (trigger_reason (run_attributes run) ++ " " ++ created_at (run_attributes run)) /\
  iconPath (RunTreeItem.props item) =
    Some (GetRunStatusIcon (status (run_attributes run))) /\
  collapsibleState (RunTreeItem.props item) = Some RunTreeItem.CollapsibleNone /\
  tooltip (RunTreeItem.props item) = None.
Proof.
  unfold RunTreeDataProvider.makeRunItem.
  destruct included as [inc|]; [|by repeat split].
  destruct (findConfigurationVersionAttributes inc run);
    destruct (run_relationships run !! "plan");
    destruct (findPlanAttributes inc run) as [planAttributes|];
    try destruct (Js.includes qualifying_statuses (planAttributes !! "status"));
    destruct (run_relationships run !! "apply");
    destruct (findApplyAttributes inc run) as [applyAttributes|];
    try destruct (Js.includes qualifying_statuses (applyAttributes !! "status"));
    by repeat split.
Qed.

(** X1. A successful, non-empty response is listed run by run: the result
    has one run item per run, in the order of the response, and the item
    of a run carries its id and attributes, the active workspace, the
    run's message as label, ['<trigger-reason> <created-at>'] as
    description, the status icon, and no tooltip yet. *)
Theorem getRuns_lists_every_run `{Imports} (env : Env) (this : RunTreeDataProvider.t)
    (workspace activeWorkspace : WorkspaceTreeItem) (runs : RunsResponse) (h : Host) :
  signed_in env = true ->
  RunTreeDataProvider.activeWorkspace this = Some activeWorkspace ->
  listRuns_outcome env (RunTreeDataProvider.listRunsRequest workspace) = Js.Ok runs ->
  runs_data runs <> [] ->
  let items := fst (RunTreeDataProvider.getRuns env this workspace h) in
  List.length items = List.length (runs_data runs) /\
  forall i run,
    nth_error (runs_data runs) i = Some run ->
    exists item,
      nth_error items i = Some (RunItem item) /\
      RunTreeItem.id item = run_id run /\
      RunTreeItem.attributes item = run_attributes run /\
      RunTreeItem.workspace item = activeWorkspace /\
      label (RunTreeItem.props item) = Some (message (run_attributes run)) /\
      description (RunTreeItem.props item) =
        Some (trigger_reason (run_attributes run) ++ " " ++
              created_at (run_attributes run)) /\
      iconPath (RunTreeItem.props item) =
        Some (GetRunStatusIcon (status (run_attributes run))) /\
      tooltip (RunTreeItem.props item) = None.
Proof.
  intros Hin Hactive Hok Hdata. cbv zeta.
  rewrite (getRuns_ok env this workspace activeWorkspace runs h Hin Hactive Hok).
  cbn [fst]. destruct (runs_data runs) as [|run0 rest] eqn:Hruns; [done|].
  split; [by rewrite length_map|].
  intros i run Hrun.
  exists (RunTreeDataProvider.makeRunItem (runs_included runs) run activeWorkspace).
  split; [by rewrite nth_error_map, Hrun|].
  destruct (makeRunItem_base (runs_included runs) run activeWorkspace)
    as (? & ? & ? & ? & ? & ? & ? & ?).
  by repeat split.
Qed.

Lemma getRuns_lists_every_run_witness :
  let env :=
    sample_env "acme" sample_session
      (Js.Ok (sample_response [sample_run; sample_run_apply_only])) in
  let this := sample_provider (Some sample_workspace) in
  let items :=
    fst (@RunTreeDataProvider.getRuns sample_imports env this sample_workspace
           fresh_host) in
  List.length items = 2 /\
  forall i run,
    nth_error [sample_run; sample_run_apply_only] i = Some run ->
    exists item,
      nth_error items i = Some (RunItem item) /\
      RunTreeItem.id item = run_id run /\
      RunTreeItem.attributes item = run_attributes run /\
      RunTreeItem.workspace item = sample_workspace /\
      label (RunTreeItem.props item) = Some (message (run_attributes run)) /\
      description (RunTreeItem.props item) =
        Some (trigger_reason (run_attributes run) ++ " " ++
              created_at (run_attributes run)) /\
      iconPath (RunTreeItem.props item) =
        Some (@GetRunStatusIcon sample_imports (status (run_attributes run))) /\
      tooltip (RunTreeItem.props item) = None.
Proof.
  apply (@getRuns_lists_every_run sample_imports
           (sample_env "acme" sample_session
              (Js.Ok (sample_response [sample_run; sample_run_apply_only])))
           (sample_provider (Some sample_workspace)) sample_workspace sample_workspace
           (sample_response [sample_run; sample_run_apply_only]) fresh_host);
    first [reflexivity | discriminate].
Defined.

Lemma array_find_rejected {A : Type} (callback : A -> bool) (arr : list A) :
  Forall (fun x => callback x = false) arr -> Js.array_find callback arr = None.
Proof.
  induction 1 as [|x rest Hx _ IH]; simpl; [done|]. by rewrite Hx.
Qed.

Lemma scan_other_type (ty : string) (ref : option string) (included : list IncludedObject) :
  Forall (fun o => inc_type o <> ty) included ->
  Js.array_find
    (fun o => String.eqb (inc_type o) ty && Js.strict_eq (inc_id o) ref) included = None.
Proof.
  intros Hall. apply array_find_rejected.
  eapply Forall_impl; [exact Hall|]. simpl. intros o Hne.
  apply String.eqb_neq in Hne. by rewrite Hne.
Qed.

(** X2. Included objects of other resource types are ignored: when no
    included object is a user, a configuration version, a plan or an
    apply (in particular when the array is empty), the run item is the one
    built without [included] at all; no field is resolved and the context
    value stays [undefined]. *)
Theorem makeRunItem_ignores_other_types `{Imports} (included : list IncludedObject)
    (run : Run) (activeWorkspace : WorkspaceTreeItem) :
  Forall (fun o => ~ joined_from_run (inc_type o)) included ->
  RunTreeDataProvider.makeRunItem (Some included) run activeWorkspace =
  RunTreeDataProvider.makeRunItem None run activeWorkspace /\
  RunTreeDataProvider.makeRunItem (Some included) run activeWorkspace =
  bare_item run activeWorkspace /\
  contextValue (RunTreeItem.props (bare_item run activeWorkspace)) = None.
Proof.
  intros Hall.
  assert (Htype : forall ty, joined_from_run ty ->
            Forall (fun o => inc_type o <> ty) included).
  { intros ty Hty. eapply Forall_impl; [exact Hall|]. simpl.
    intros o Hno Heq. apply Hno. by rewrite Heq. }
  unfold RunTreeDataProvider.makeRunItem, bare_item,
    findCreatedByAttributes, findConfigurationVersionAttributes,
    findPlanAttributes, findApplyAttributes. cbv zeta.
  rewrite !scan_other_type by (apply Htype; unfold joined_from_run; auto).
  destruct (run_relationships run !! "plan"), (run_relationships run !! "apply");
    by repeat split.
Qed.

Lemma makeRunItem_ignores_other_types_witness :
  Forall (fun o => ~ joined_from_run (inc_type o)) [sample_ingress] /\
  @RunTreeDataProvider.makeRunItem sample_imports (Some [sample_ingress]) sample_run
    sample_workspace =
  @RunTreeDataProvider.makeRunItem sample_imports None sample_run sample_workspace.
Proof.
  assert (Hall : Forall (fun o => ~ joined_from_run (inc_type o)) [sample_ingress]).
  { constructor; [|constructor]. intros [H|[H|[H|H]]]; discriminate H. }
  split; [exact Hall|].
  apply (@makeRunItem_ignores_other_types sample_imports [sample_ingress] sample_run
           sample_workspace Hall).
Defined.

Lemma scan_some_in (ty : string) (rel : option Relationship)
    (included : list IncludedObject) (o : IncludedObject) :
  Js.array_find
    (fun o => String.eqb (inc_type o) ty && Js.strict_eq (inc_id o) (ref_id rel))
    included = Some o ->
  In o included /\ matches ty rel o.
Proof.
  intros Hscan. pose proof (scan_lookup_spec ty rel included) as [Hfirst _].
  rewrite Hscan in Hfirst. destruct Hfirst as (before & rest & -> & Hmatch & _).
  split; [|done]. apply in_or_app. right. by left.
Qed.

Lemma makeRunItem_relations `{Imports} (included : option (list IncludedObject))
    (run : Run) (activeWorkspace : WorkspaceTreeItem) :
  let item := RunTreeDataProvider.makeRunItem included run activeWorkspace in
  RunTreeItem.createdBy item =
    (match included with
     | Some inc => findCreatedByAttributes inc run
     | None => None
     end) /\
  RunTreeItem.configurationVersion item =
    (match included with
     | Some inc => inc_attributes <$> findConfigurationVersionAttributes inc run
     | None => None
     end) /\
  RunTreeItem.ingressAttributes item =
    (match included with
     | Some inc =>
         match findConfigurationVersionAttributes inc run with
         | Some cfg => findIngressAttributes inc cfg
         | None => None
         end
     | None => None
     end).
Proof.
  unfold RunTreeDataProvider.makeRunItem.
  destruct included as [inc|]; [|by repeat split].
  destruct (findConfigurationVersionAttributes inc run);
    destruct (run_relationships run !! "plan");
    destruct (findPlanAttributes inc run) as [planAttributes|];
    try destruct (Js.includes qualifying_statuses (planAttributes !! "status"));
    destruct (run_relationships run !! "apply");
    destruct (findApplyAttributes inc run) as [applyAttributes|];
    try destruct (Js.includes qualifying_statuses (applyAttributes !! "status"));
    by repeat split.
Qed.

(** X3. The join behind a run item is sound. Ingress attributes on an item
    are those of an included ingress object that an included configuration
    version links to, that configuration version being the one the run
    links to and the one whose attributes the item holds; an item without
    configuration version has no ingress attributes; and [createdBy] holds
    the attributes of an included user the run links to. *)
Theorem makeRunItem_join `{Imports} (included : option (list IncludedObject)) (run : Run)
    (activeWorkspace : WorkspaceTreeItem) :
  let item := RunTreeDataProvider.makeRunItem included run activeWorkspace in
  (forall a,
     RunTreeItem.ingressAttributes item = Some a ->
     exists inc cfg ing,
       included = Some inc /\ In cfg inc /\ In ing inc /\
       matches "configuration-versions"
         (run_relationships run !! "configuration-version") cfg /\
       matches "ingress-attributes"
         (inc_relationships cfg !! "ingress-attributes") ing /\
       RunTreeItem.configurationVersion item = Some (inc_attributes cfg) /\
       a = inc_attributes ing) /\
  (RunTreeItem.configurationVersion item = None ->
   RunTreeItem.ingressAttributes item = None) /\
  (forall c,
     RunTreeItem.createdBy item = Some c ->
     exists inc user,
       included = Some inc /\ In user inc /\
       matches "users" (run_relationships run !! "created-by") user /\
       c = inc_attributes user).
Proof.
  cbv zeta.
  destruct (makeRunItem_relations included run activeWorkspace)
    as (Hcreated & Hcfg & Hingress).
  rewrite Hcreated, Hcfg, Hingress. clear Hcreated Hcfg Hingress.
  destruct included as [inc|]; [|by repeat split].
  split; [|split].
  - intros a Ha.
    destruct (findConfigurationVersionAttributes inc run) as [cfg|] eqn:Hcfg;
      [|discriminate].
    unfold findConfigurationVersionAttributes in Hcfg. cbv zeta in Hcfg.
    destruct (Js.array_find _ inc) as [cfg'|] eqn:Hscan in Hcfg; [|discriminate].
    injection Hcfg as ->.
    apply scan_some_in in Hscan as [Hin Hmatch].
    unfold findIngressAttributes in Ha. cbv zeta in Ha.
    destruct (Js.array_find _ inc) as [ing|] eqn:Hscan' in Ha; [|discriminate].
    injection Ha as <-.
    apply scan_some_in in Hscan' as [Hin' Hmatch'].
    by exists inc, cfg, ing.
  - by destruct (findConfigurationVersionAttributes inc run).
  - intros c Hc. unfold findCreatedByAttributes in Hc. cbv zeta in Hc.
    destruct (Js.array_find _ inc) as [user|] eqn:Hscan in Hc; [|discriminate].
    injection Hc as <-.
    apply scan_some_in in Hscan as [Hin Hmatch].
    by exists inc, user.
Qed.

(** X4. [resolveTreeItem] changes nothing but the tooltip: the item it
    returns is the item it was given with the tooltip replaced by the
    markdown of [element], whatever the item is; label, icon, description
    and context value are kept. When [runMarkdown] throws, so does it. *)
Theorem resolveTreeItem_frame `{Imports} (item : TreeItem) (element : RunTreeItem.t) :
  match RunTreeDataProvider.resolveTreeItem item element with
  | Js.Ok item' =>
      exists md,
        runMarkdown element = Js.Ok md /\
        supportHtml md = true /\ supportThemeIcons md = true /\
        match item, item' with
        | PlainTreeItem p, PlainTreeItem p' =>
            tooltip p' = Some (TooltipMarkdown md) /\
            label p' = label p /\ iconPath p' = iconPath p /\
            description p' = description p /\ contextValue p' = contextValue p /\
            collapsibleState p' = collapsibleState p
        | RunItem r, RunItem r' =>
            tooltip (RunTreeItem.props r') = Some (TooltipMarkdown md) /\
            r' = RunTreeItem.set_props
                   (set_tooltip (Some (TooltipMarkdown md)) (RunTreeItem.props r)) r /\
            contextValue (RunTreeItem.props r') = contextValue (RunTreeItem.props r) /\
            label (RunTreeItem.props r') = label (RunTreeItem.props r) /\
            RunTreeItem.planId r' = RunTreeItem.planId r /\
            RunTreeItem.applyId r' = RunTreeItem.applyId r /\
            RunTreeItem.id r' = RunTreeItem.id r /\
            RunTreeItem.workspace r' = RunTreeItem.workspace r
        | _, _ => False
        end
  | Js.Throw e => runMarkdown element = Js.Throw e
  end.
Proof.
  unfold RunTreeDataProvider.resolveTreeItem.
  pose proof (runMarkdown_cases element) as Hcases.
  destruct (runMarkdown element) as [md|e] eqn:Hmd; [|done].
  exists md. split; [done|].
  assert (Hflags : supportHtml md = true /\ supportThemeIcons md = true).
  { destruct (RunTreeItem.ingressAttributes element) as [ingress|];
      [destruct (RunTreeItem.configurationVersion element) as [cfg|];
       [destruct (cfg !! "source") as [cfgSource|];
        [destruct (String.eqb cfgSource EmptyString);
         [|destruct (ingress !! "commit-sha");
           [destruct (ingress !! "commit-message")|]]|]|]|];
      try discriminate Hcases; by injection Hcases as ->. }
  destruct Hflags as [-> ->]. split; [done|]. split; [done|].
  destruct item as [p|r]; by repeat split.
Qed.

(** X5. The tooltip shows the commit only through the first eight
    characters of its sha and the first line of its message: an item whose
    ingress attributes differ from another's only in a sha with the same
    first eight characters and a message with the same first line gets the
    same tooltip. *)
Theorem runMarkdown_shortening `{Imports} (item : RunTreeItem.t) (ingress : Attributes)
    (sha msg sha' msg' : string) :
  RunTreeItem.ingressAttributes item = Some ingress ->
  ingress !! "commit-sha" = Some sha ->
  ingress !! "commit-message" = Some msg ->
  Js.slice0 8 sha' = Js.slice0 8 sha ->
  Js.first_line msg' = Js.first_line msg ->
  runMarkdown
    (RunTreeItem.set_ingressAttributes
       (Some (<["commit-sha" := sha']> (<["commit-message" := msg']> ingress))) item)
  = runMarkdown item.
Proof.
  intros Hingress Hsha Hmsg Hshort Hline.
  rewrite !runMarkdown_cases. cbn [RunTreeItem.ingressAttributes
    RunTreeItem.configurationVersion RunTreeItem.set_ingressAttributes].
  rewrite Hingress, lookup_insert_eq, lookup_insert_ne, lookup_insert_eq, Hsha, Hmsg
    by done.
  assert (Hsame : forall configuration,
            tooltip_with
              (RunTreeItem.set_ingressAttributes
                 (Some (<["commit-sha" := sha']> (<["commit-message" := msg']> ingress)))
                 item) configuration
            = tooltip_with item configuration).
  { intros configuration.
    unfold tooltip_with, author_part, summary_part, table_part, trailer_part.
    cbn [RunTreeItem.ingressAttributes RunTreeItem.createdBy RunTreeItem.attributes
         RunTreeItem.id RunTreeItem.workspace RunTreeItem.set_ingressAttributes].
    rewrite Hingress. by rewrite !lookup_insert_ne by done. }
  assert (Hrows : forall cfgSource,
            vcs_rows (<["commit-sha" := sha']> (<["commit-message" := msg']> ingress))
              cfgSource sha' msg'
            = vcs_rows ingress cfgSource sha msg).
  { intros cfgSource. unfold vcs_rows.
    rewrite Hshort, Hline. by rewrite !lookup_insert_ne by done. }
  destruct (RunTreeItem.configurationVersion item) as [cfg|];
    [destruct (cfg !! "source") as [cfgSource|];
     [destruct (String.eqb cfgSource EmptyString)|]|];
    rewrite ?Hsame, ?Hrows; reflexivity.
Qed.

Lemma runMarkdown_shortening_witness :
  @runMarkdown sample_imports
    (RunTreeItem.set_ingressAttributes
       (Some (<["commit-sha" := "01234567ffff"]>
                (<["commit-message" := "fix: x" ++ Js.nl ++ "another body"]>
                   (inc_attributes sample_ingress)))) sample_item)
  = @runMarkdown sample_imports sample_item.
Proof.
  apply (@runMarkdown_shortening sample_imports sample_item
           (inc_attributes sample_ingress) "0123456789abcdef"
           ("fix: x" ++ Js.nl ++ "body") "01234567ffff"
           ("fix: x" ++ Js.nl ++ "another body"));
    vm_compute; reflexivity.
Defined.

(** X6. [TFLintCommands.dispose] disposes every disposable held in
    [commands] exactly once, in order, whatever the list holds, and leaves
    the list as it is: a second call disposes the same disposables again. *)
Theorem tflint_dispose_repeats (this : TFLintCommands.t) (h : Host) :
  TFLintCommands.dispose this h =
    (tt, after h (map DisposeOf (TFLintCommands.commands this))) /\
  snd (TFLintCommands.dispose this (snd (TFLintCommands.dispose this h))) =
    after h (map DisposeOf (TFLintCommands.commands this) ++
             map DisposeOf (TFLintCommands.commands this)).
Proof.
  unfold TFLintCommands.dispose. rewrite !forEach_dispose_trace.
  split; [reflexivity|]. unfold after. simpl. by rewrite <- app_assoc.
Qed.


(** *** The commands of the run provider *)

Ltac run_window :=
  unfold wbind, wret, log, lift, openTextDocument, registerRunCommand,
    subscriptions_push, new_EventEmitter, window_after, bind, emit, ret;
  simpl; rewrite <- ?app_assoc; try reflexivity.

(** X8. Constructing the provider registers exactly five commands, under
    five different names and with five different disposables, and appends
    all five disposables to [ctx.subscriptions], in registration order. The
    new provider has no active workspace, so [getChildren()] on it yields
    the empty list without any call. *)
Theorem provider_constructor_registers `{Imports} (ctx : ExtensionContext)
    (reporter : TelemetryReporter) (outputChannel : OutputChannel) (w : Window)
    (env : Env) (h : Host) :
  let (this, w') := RunTreeDataProvider_constructor ctx reporter outputChannel w in
  exists d1 d2 d3 d4 d5,
    calls w' =
      (calls w ++
       [RegisterRunCommand "terraform.cloud.runs.refresh" RunsRefresh d1;
        RegisterRunCommand "terraform.cloud.run.viewInBrowser" RunViewInBrowser d2;
        RegisterRunCommand "terraform.cloud.run.plan.downloadLog" PlanDownloadLog d3;
        RegisterRunCommand "terraform.cloud.run.apply.downloadLog" ApplyDownloadLog d4;
        RegisterRunCommand "terraform.cloud.run.apply.viewInBrowser"
          ApplyViewInBrowser d5])%list /\
    subscriptions w' = (subscriptions w ++ [d1; d2; d3; d4; d5])%list /\
    NoDup [d1; d2; d3; d4; d5] /\
    NoDup ["terraform.cloud.runs.refresh"; "terraform.cloud.run.viewInBrowser";
           "terraform.cloud.run.plan.downloadLog";
           "terraform.cloud.run.apply.downloadLog";
           "terraform.cloud.run.apply.viewInBrowser"] /\
    RunTreeDataProvider.activeWorkspace this = None /\
    RunTreeDataProvider.ctx this = ctx /\
    RunTreeDataProvider.reporter this = reporter /\
    RunTreeDataProvider.outputChannel this = outputChannel /\
    RunTreeDataProvider.getChildren env this None h = ([], h).
Proof.
  unfold RunTreeDataProvider_constructor.
  unfold wbind, wret, registerRunCommand, subscriptions_push, new_EventEmitter. simpl.
  eexists _, _, _, _, _.
  split; [by rewrite <- !app_assoc|].
  split; [by rewrite <- !app_assoc|].
  split.
  { repeat (apply NoDup_cons; split;
            [rewrite ?not_elem_of_cons; repeat split;
             first [apply not_elem_of_nil | intros [= Heq]; lia]|]).
    apply NoDup_nil_2. }
  split.
  { repeat (apply NoDup_cons; split;
            [rewrite ?not_elem_of_cons; repeat split;
             (discriminate || apply not_elem_of_nil)|]).
    apply NoDup_nil_2. }
  by repeat split.
Qed.

(** X9. The refresh command reports ['tfc-runs-refresh'] and then fires the
    tree-data-change event once; it refreshes with the workspace that is
    already active, so the provider is left as it was. *)
Theorem runsRefresh_keeps_workspace (this : RunTreeDataProvider.t) (w : Window) :
  runsRefresh this w =
  (this,
   window_after w
     [Logged (SendTelemetryEvent (RunTreeDataProvider.reporter this)
                "tfc-runs-refresh" []);
      Logged (Fire (RunTreeDataProvider.didChangeTreeData this))]).
Proof.
  unfold runsRefresh, RunTreeDataProvider.refresh. destruct this. run_window.
Qed.

(** X10. Both browser commands do nothing at all when the stored
    organization name is empty or missing. Otherwise both open the same
    address, [<web url>/<organization>/workspaces/<workspace name>/runs/<run
    id>]: the apply command opens the page of the run. Only the run command
    reports a telemetry event, before opening. *)
Theorem view_in_browser_commands (TerraformCloudWebUrl : string) (env : Env)
    (this : RunTreeDataProvider.t) (run : RunTreeItem.t) (w : Window) :
  let orgName := workspaceState_get env "terraform.cloud.organization" EmptyString in
  let target :=
    Uri_parse
      (TerraformCloudWebUrl ++ "/" ++ orgName ++ "/workspaces/" ++
       name (ws_attributes (RunTreeItem.workspace run)) ++ "/runs/" ++
       RunTreeItem.id run) in
  (orgName = EmptyString ->
   runViewInBrowser TerraformCloudWebUrl env this run w = (tt, w) /\
   applyViewInBrowser TerraformCloudWebUrl env run w = (tt, w)) /\
  (orgName <> EmptyString ->
   runViewInBrowser TerraformCloudWebUrl env this run w =
     (tt, window_after w
            [Logged (SendTelemetryEvent (RunTreeDataProvider.reporter this)
                       "tfc-runs-viewInBrowser" []);
             OpenExternal target]) /\
   applyViewInBrowser TerraformCloudWebUrl env run w =
     (tt, window_after w [OpenExternal target])).
Proof.
  cbv zeta. unfold runViewInBrowser, applyViewInBrowser. split.
  - intros ->. by split.
  - intros Hne%String.eqb_neq. rewrite Hne. split; run_window.
Qed.

Lemma view_in_browser_commands_witness :
  let env := sample_env "acme" sample_session (Js.Ok (sample_response [])) in
  let this := sample_provider (Some sample_workspace) in
  runViewInBrowser "https://app.terraform.io/app" env this sample_item fresh_window =
    (tt, window_after fresh_window
           [Logged (SendTelemetryEvent (RunTreeDataProvider.reporter this)
                      "tfc-runs-viewInBrowser" []);
            OpenExternal
              (Uri_parse "https://app.terraform.io/app/acme/workspaces/prod/runs/run-1")]) /\
  applyViewInBrowser "https://app.terraform.io/app" env sample_item fresh_window =
    (tt, window_after fresh_window
           [OpenExternal
              (Uri_parse "https://app.terraform.io/app/acme/workspaces/prod/runs/run-1")]).
Proof.
  apply (proj2 (view_in_browser_commands "https://app.terraform.io/app"
                  (sample_env "acme" sample_session (Js.Ok (sample_response [])))
                  (sample_provider (Some sample_workspace)) sample_item fresh_window)).
  vm_compute. discriminate.
Defined.

Lemma truthy_id_spec (v : option string) :
  (v = None \/ v = Some EmptyString -> truthy_id v = None) /\
  (forall s, v = Some s -> s <> EmptyString -> truthy_id v = Some s).
Proof.
  unfold truthy_id. split.
  - by intros [->| ->].
  - intros s -> Hne%String.eqb_neq. by rewrite Hne.
Qed.

(** X11. The plan log command shows ['No plan found for <run id>'] and
    opens nothing when the item's [planId] is [undefined] or the empty
    string. Otherwise it opens the document [vscode-terraform://plan/<planId>]
    and shows it with [preview] off; when opening fails, the failure is
    passed on and nothing is shown. The apply log command does the same
    with [applyId], ['No apply found for <run id>'] and
    [vscode-terraform://apply/<applyId>]. *)
Theorem download_log_commands (outcome : Uri -> Js.Result TextDocument)
    (run : RunTreeItem.t) (w : Window) :
  (RunTreeItem.planId run = None \/ RunTreeItem.planId run = Some EmptyString ->
   planDownloadLog outcome run w =
     (Js.Ok tt,
      window_after w
        [Logged (ShowErrorMessage ("No plan found for " ++ RunTreeItem.id run))])) /\
  (forall planId,
     RunTreeItem.planId run = Some planId -> planId <> EmptyString ->
     let planUri := Uri_parse ("vscode-terraform://plan/" ++ planId) in
     planDownloadLog outcome run w =
       match outcome planUri with
       | Js.Ok doc =>
           (Js.Ok tt,
            window_after w [OpenTextDocument planUri; ShowTextDocument doc false])
       | Js.Throw e => (Js.Throw e, window_after w [OpenTextDocument planUri])
       end) /\
  (RunTreeItem.applyId run = None \/ RunTreeItem.applyId run = Some EmptyString ->
   applyDownloadLog outcome run w =
     (Js.Ok tt,
      window_after w
        [Logged (ShowErrorMessage ("No apply found for " ++ RunTreeItem.id run))])) /\
  (forall applyId,
     RunTreeItem.applyId run = Some applyId -> applyId <> EmptyString ->
     let applyUri := Uri_parse ("vscode-terraform://apply/" ++ applyId) in
     applyDownloadLog outcome run w =
       match outcome applyUri with
       | Js.Ok doc =>
           (Js.Ok tt,
            window_after w [OpenTextDocument applyUri; ShowTextDocument doc false])
       | Js.Throw e => (Js.Throw e, window_after w [OpenTextDocument applyUri])
       end).
Proof.
  unfold planDownloadLog, applyDownloadLog.
  split; [|split; [|split]].
  - intros Hmissing. rewrite (proj1 (truthy_id_spec _) Hmissing). run_window.
  - intros planId Hsome Hne. cbv zeta.
    rewrite (proj2 (truthy_id_spec _) planId Hsome Hne).
    unfold wbind, openTextDocument, log, wret. simpl.
    destruct (outcome _); run_window.
  - intros Hmissing. rewrite (proj1 (truthy_id_spec _) Hmissing). run_window.
  - intros applyId Hsome Hne. cbv zeta.
    rewrite (proj2 (truthy_id_spec _) applyId Hsome Hne).
    unfold wbind, openTextDocument, log, wret. simpl.
    destruct (outcome _); run_window.
Qed.

Lemma download_log_commands_witness :
  let outcome := fun _ : Uri => Js.Ok {| document_handle := 7 |} in
  planDownloadLog outcome sample_item fresh_window =
    (Js.Ok tt,
     window_after fresh_window
       [OpenTextDocument (Uri_parse "vscode-terraform://plan/plan-1");
        ShowTextDocument {| document_handle := 7 |} false]) /\
  applyDownloadLog outcome
    (@RunTreeDataProvider.makeRunItem sample_imports None sample_run sample_workspace)
    fresh_window =
    (Js.Ok tt,
     window_after fresh_window [Logged (ShowErrorMessage "No apply found for run-1")]).
Proof.
  split.
  - apply (proj1 (proj2 (download_log_commands
                          (fun _ : Uri => Js.Ok {| document_handle := 7 |})
                          sample_item fresh_window)) "plan-1");
      [vm_compute; reflexivity|discriminate].
  - apply (proj1 (proj2 (proj2 (download_log_commands
                          (fun _ : Uri => Js.Ok {| document_handle := 7 |})
                          (@RunTreeDataProvider.makeRunItem sample_imports None
                             sample_run sample_workspace) fresh_window)))).
    left. reflexivity.
Defined.

(** X12. From the listing to the log commands: for the run item built for
    a run, the plan log command answers ['No plan found for <id of the
    run>'] whenever the run's plan does not qualify (no included objects,
    no plan relationship, plan not included, or status not ended); when it
    qualifies and the linked plan id is not empty, the command opens
    [vscode-terraform://plan/<linked id>]. The same holds for the apply. *)
Theorem listing_gates_log_commands `{Imports} (outcome : Uri -> Js.Result TextDocument)
    (included : option (list IncludedObject)) (run : Run)
    (activeWorkspace : WorkspaceTreeItem) (w : Window) :
  let item := RunTreeDataProvider.makeRunItem included run activeWorkspace in
  ((~ exists attrs, plan_qualifies included run attrs) ->
   planDownloadLog outcome item w =
     (Js.Ok tt,
      window_after w [Logged (ShowErrorMessage ("No plan found for " ++ run_id run))])) /\
  (forall attrs,
     plan_qualifies included run attrs ->
     exists planId,
       references (run_relationships run !! "plan") planId /\
       (planId <> EmptyString ->
        fst (planDownloadLog outcome item w) =
          match outcome (Uri_parse ("vscode-terraform://plan/" ++ planId)) with
          | Js.Ok _ => Js.Ok tt
          | Js.Throw e => Js.Throw e
          end /\
        exists shown,
          calls (snd (planDownloadLog outcome item w)) =
            (calls w ++
             OpenTextDocument (Uri_parse ("vscode-terraform://plan/" ++ planId))
             :: shown)%list)) /\
  ((~ exists attrs, apply_qualifies included run attrs) ->
   applyDownloadLog outcome item w =
     (Js.Ok tt,
      window_after w [Logged (ShowErrorMessage ("No apply found for " ++ run_id run))])) /\
  (forall attrs,
     apply_qualifies included run attrs ->
     exists applyId,
       references (run_relationships run !! "apply") applyId /\
       (applyId <> EmptyString ->
        fst (applyDownloadLog outcome item w) =
          match outcome (Uri_parse ("vscode-terraform://apply/" ++ applyId)) with
          | Js.Ok _ => Js.Ok tt
          | Js.Throw e => Js.Throw e
          end /\
        exists shown,
          calls (snd (applyDownloadLog outcome item w)) =
            (calls w ++
             OpenTextDocument (Uri_parse ("vscode-terraform://apply/" ++ applyId))
             :: shown)%list)).
Proof.
  cbv zeta.
  destruct (makeRunItem_fields included run activeWorkspace)
    as (_ & HplanId & _ & HapplyId & _).
  destruct (makeRunItem_base included run activeWorkspace) as (Hid & _).
  unfold planDownloadLog, applyDownloadLog. rewrite HplanId, HapplyId, Hid.
  split; [|split; [|split]].
  - intros Hnone.
    destruct (passing_plan included run) as [attrs|] eqn:Hpass.
    { exfalso. apply Hnone. exists attrs. by apply passing_plan_qualifies. }
    run_window.
  - intros attrs Hq%passing_plan_qualifies. rewrite Hq.
    pose proof Hq as Hq'. apply passing_plan_qualifies in Hq'.
    destruct Hq' as (inc & _ & _ & Hfind & _).
    unfold findPlanAttributes in Hfind. cbv zeta in Hfind.
    destruct (Js.array_find _ inc) as [o|] eqn:Hscan in Hfind; [|discriminate].
    apply scan_some_in in Hscan as [_ [_ Href]].
    exists (inc_id o). split; [done|]. intros Hne.
    apply ref_id_references in Href. rewrite Href.
    rewrite (proj2 (truthy_id_spec _) (inc_id o) eq_refl Hne).
    unfold wbind, openTextDocument, log, wret. simpl.
    destruct (outcome _); simpl; (split; [done|]); rewrite <- ?app_assoc; by eexists.
  - intros Hnone.
    destruct (passing_apply included run) as [attrs|] eqn:Hpass.
    { exfalso. apply Hnone. exists attrs. by apply passing_apply_qualifies. }
    run_window.
  - intros attrs Hq%passing_apply_qualifies. rewrite Hq.
    pose proof Hq as Hq'. apply passing_apply_qualifies in Hq'.
    destruct Hq' as (inc & _ & _ & Hfind & _).
    unfold findApplyAttributes in Hfind. cbv zeta in Hfind.
    destruct (Js.array_find _ inc) as [o|] eqn:Hscan in Hfind; [|discriminate].
    apply scan_some_in in Hscan as [_ [_ Href]].
    exists (inc_id o). split; [done|]. intros Hne.
    apply ref_id_references in Href. rewrite Href.
    rewrite (proj2 (truthy_id_spec _) (inc_id o) eq_refl Hne).
    unfold wbind, openTextDocument, log, wret. simpl.
    destruct (outcome _); simpl; (split; [done|]); rewrite <- ?app_assoc; by eexists.
Qed.

(** X13. No command changes the provider, [ctx.subscriptions] or the
    handles in use: whichever of the five registered handlers runs, on
    whatever run item, the provider afterwards is the provider before. *)
Theorem commands_keep_provider (TerraformCloudWebUrl : string)
    (outcome : Uri -> Js.Result TextDocument) (env : Env) (callback : RunCallback)
    (this : RunTreeDataProvider.t) (run : RunTreeItem.t) (w : Window) :
  let result := invokeRunCommand TerraformCloudWebUrl outcome env callback this run w in
  fst (fst result) = this /\
  subscriptions (snd result) = subscriptions w /\
  next_handle (snd result) = next_handle w /\
  exists made, calls (snd result) = (calls w ++ made)%list.
Proof.
  cbv zeta. unfold invokeRunCommand.
  destruct callback.
  - unfold wbind, wret, runsRefresh, RunTreeDataProvider.refresh, lift, bind, emit, ret.
    destruct this. simpl. rewrite <- ?app_assoc. repeat split. by eexists.
  - unfold wbind, wret, runViewInBrowser.
    destruct (String.eqb _ EmptyString); simpl.
    + repeat split. exists []. by rewrite app_nil_r.
    + rewrite <- ?app_assoc. repeat split. by eexists.
  - unfold wbind, wret, planDownloadLog, openTextDocument, log.
    destruct (truthy_id _); simpl; [destruct (outcome _); simpl|];
      rewrite <- ?app_assoc; repeat split; by eexists.
  - unfold wbind, wret, applyDownloadLog, openTextDocument, log.
    destruct (truthy_id _); simpl; [destruct (outcome _); simpl|];
      rewrite <- ?app_assoc; repeat split; by eexists.
  - unfold wbind, wret, applyViewInBrowser.
    destruct (String.eqb _ EmptyString); simpl.
    + repeat split. exists []. by rewrite app_nil_r.
    + repeat split. by eexists.
Qed.

Lemma listing_gates_log_commands_witness :
  let outcome := fun _ : Uri => Js.Ok {| document_handle := 7 |} in
  (exists attrs, plan_qualifies (Some sample_included) sample_run attrs) /\
  exists planId,
    references (run_relationships sample_run !! "plan") planId /\
    (planId <> EmptyString ->
     fst (planDownloadLog outcome sample_item fresh_window) =
       match outcome (Uri_parse ("vscode-terraform://plan/" ++ planId)) with
       | Js.Ok _ => Js.Ok tt
       | Js.Throw e => Js.Throw e
       end /\
     exists shown,
       calls (snd (planDownloadLog outcome sample_item fresh_window)) =
         (calls fresh_window ++
          OpenTextDocument (Uri_parse ("vscode-terraform://plan/" ++ planId))
          :: shown)%list).
Proof.
  assert (Hq : plan_qualifies (Some sample_included) sample_run
                 (inc_attributes (sample_plan "finished"))).
  { exists sample_included. split; [reflexivity|]. split; [by eexists|].
    split; [vm_compute; reflexivity|]. right. right. vm_compute. reflexivity. }
  split; [by eexists|].
  apply (proj1 (proj2 (@listing_gates_log_commands sample_imports
                         (fun _ : Uri => Js.Ok {| document_handle := 7 |})
                         (Some sample_included) sample_run sample_workspace
                         fresh_window))
           (inc_attributes (sample_plan "finished")) Hq).
Defined.

Lemma makeRunItem_join_witness :
  RunTreeItem.ingressAttributes sample_item = Some (inc_attributes sample_ingress) /\
  exists inc cfg ing,
    Some sample_included = Some inc /\ In cfg inc /\ In ing inc /\
    matches "configuration-versions"
      (run_relationships sample_run !! "configuration-version") cfg /\
    matches "ingress-attributes" (inc_relationships cfg !! "ingress-attributes") ing /\
    RunTreeItem.configurationVersion sample_item = Some (inc_attributes cfg) /\
    inc_attributes sample_ingress = inc_attributes ing.
Proof.
  assert (Hingress : RunTreeItem.ingressAttributes sample_item
                     = Some (inc_attributes sample_ingress))
    by (vm_compute; reflexivity).
  split; [exact Hingress|].
  apply (proj1 (@makeRunItem_join sample_imports (Some sample_included) sample_run
                  sample_workspace) (inc_attributes sample_ingress) Hingress).
Defined.

(** X14. Context values of a listing. An item that is not a run item is
    the lone placeholder, with context value ['empty']. A run item's
    context value is [undefined], ['hasPlan'], ['hasPlanhasApply'] or
    ['undefinedhasApply']: the bare value ['hasApply'] never occurs, and
    neither does ['empty']. *)
Theorem getRuns_context_values `{Imports} (env : Env) (this : RunTreeDataProvider.t)
    (workspace : WorkspaceTreeItem) (h : Host) (item : TreeItem) :
  In item (fst (RunTreeDataProvider.getRuns env this workspace h)) ->
  match item with
  | PlainTreeItem p =>
      contextValue p = Some "empty" /\
      fst (RunTreeDataProvider.getRuns env this workspace h) = [item]
  | RunItem r =>
      (contextValue (RunTreeItem.props r) = None \/
       contextValue (RunTreeItem.props r) = Some "hasPlan" \/
       contextValue (RunTreeItem.props r) = Some "hasPlanhasApply" \/
       contextValue (RunTreeItem.props r) = Some "undefinedhasApply") /\
      contextValue (RunTreeItem.props r) <> Some "hasApply" /\
      contextValue (RunTreeItem.props r) <> Some "empty"
  end.
Proof.
  intros Hin.
  destruct item as [p|r].
  - destruct (signed_in env) eqn:Hsigned;
      [|rewrite getRuns_guard in Hin by auto; destruct Hin].
    destruct (RunTreeDataProvider.activeWorkspace this) as [activeWorkspace|] eqn:Hactive;
      [|rewrite getRuns_guard in Hin by auto; destruct Hin].
    destruct (listRuns_outcome env (RunTreeDataProvider.listRunsRequest workspace))
      as [runs|error] eqn:Hout.
    + rewrite (getRuns_ok env this workspace activeWorkspace runs h Hsigned Hactive Hout)
        in *.
      cbn [fst] in *. destruct (runs_data runs) as [|run0 rest].
      * unfold no_runs_item in *. destruct Hin as [[= <-]|[]]. by split.
      * apply in_map_iff in Hin as (run & Heq & _). discriminate Heq.
    + destruct (getRuns_throw env this workspace activeWorkspace error h
                  Hsigned Hactive Hout) as (made & _ & Hrun).
      rewrite Hrun in Hin. destruct Hin.
  - apply In_nth_error in Hin as [i Hi].
    destruct (getRuns_run_item env this workspace h i r Hi)
      as (runs & run & activeWorkspace & _ & _ & _ & ->).
    destruct (makeRunItem_fields (runs_included runs) run activeWorkspace)
      as (_ & _ & _ & _ & ->).
    destruct (passing_plan (runs_included runs) run),
      (passing_apply (runs_included runs) run);
      (split; [auto|split; discriminate]).
Qed.

Lemma getRuns_context_values_witness :
  let env :=
    sample_env "acme" sample_session
      (Js.Ok (sample_response [sample_run; sample_run_apply_only])) in
  let this := sample_provider (Some sample_workspace) in
  let r :=
    @RunTreeDataProvider.makeRunItem sample_imports (Some sample_included)
      sample_run_apply_only sample_workspace in
  (contextValue (RunTreeItem.props r) = None \/
   contextValue (RunTreeItem.props r) = Some "hasPlan" \/
   contextValue (RunTreeItem.props r) = Some "hasPlanhasApply" \/
   contextValue (RunTreeItem.props r) = Some "undefinedhasApply") /\
  contextValue (RunTreeItem.props r) <> Some "hasApply" /\
  contextValue (RunTreeItem.props r) <> Some "empty".
Proof.
  apply (@getRuns_context_values sample_imports
           (sample_env "acme" sample_session
              (Js.Ok (sample_response [sample_run; sample_run_apply_only])))
           (sample_provider (Some sample_workspace)) sample_workspace fresh_host
           (RunItem (@RunTreeDataProvider.makeRunItem sample_imports
                       (Some sample_included) sample_run_apply_only sample_workspace))).
  right. left. vm_compute. reflexivity.
Defined.
